(** * Lead scoring backend: the scoring pipeline of [app.py]

    A shallow embedding of the rule-based scorer [rule_based_score], the
    intent classifier [ai_score_and_reason], the start-up selection of the
    AI client, and the [/score] handler [score_leads], with the properties
    of the specification proved or refuted against them.

    Conventions of the embedding.
    - A Python [str] is a Rocq [string]; each character stands for one code
      point in the range 0..255, and [lower], [py_isspace] are Python's
      [str.lower] and whitespace test restricted to that range.
    - A Python value that can sit in a lead record is a [pyval]; the lead
      itself (a [dict] keyed by column name) is a [gmap string pyval].
    - A raised exception is the [Raise] branch of [pyresult].
    - The completion service and the functions [json.loads] / [json.dumps]
      are not code of the repository: they are parameters of the model. *)

From Stdlib Require Import ZArith Lia Bool List Ascii String.
From Stdlib Require Import Numbers.DecimalString.
From stdpp Require Import base option strings gmap.

Local Open Scope string_scope.
Local Open Scope Z_scope.

(** ** Exceptions *)

Inductive exn : Type :=
  | IndexError
  | TypeError
  | AttributeError
  | ValueError
  | JSONDecodeError
  | APIError.

Inductive pyresult (A : Type) : Type :=
  | Ok (a : A)
  | Raise (e : exn).

Arguments Ok {A} a.
Arguments Raise {A} e.

#[global] Instance pyresult_ret : MRet pyresult := fun _ a => Ok a.

#[global] Instance pyresult_bind : MBind pyresult := fun _ _ k r =>
  match r with
  | Ok a => k a
  | Raise e => Raise e
  end.

(** [try: body except Exception: handler] *)
Definition try_except {A : Type} (body : pyresult A) (handler : exn -> A) : A :=
  match body with
  | Ok a => a
  | Raise e => handler e
  end.

(** ** Python strings *)

Module PyStr.

Definition code (c : ascii) : N := N_of_ascii c.

(** [str.lower] on one code point below 256: the ASCII capitals, and the
    Latin-1 capitals 0xC0..0xDE apart from the multiplication sign 0xD7,
    move up by 32; everything else is its own lower case. *)
Definition lower_char (c : ascii) : ascii :=
  let n := code c in
  if ((65 <=? n) && (n <=? 90))%N then ascii_of_N (n + 32)
  else if ((192 <=? n) && (n <=? 222) && negb (n =? 215))%N then ascii_of_N (n + 32)
  else c.

Fixpoint lower (s : string) : string :=
  match s with
  | EmptyString => EmptyString
  | String c t => String (lower_char c) (lower t)
  end.

(** Whitespace as [str.split()] and [str.strip()] see it, below 256. *)
Definition py_isspace (c : ascii) : bool :=
  let n := code c in
  (((9 <=? n) && (n <=? 13)) || ((28 <=? n) && (n <=? 32)) || (n =? 133) || (n =? 160))%N.

(** [s.startswith(p)] *)
Fixpoint starts_with (p s : string) : bool :=
  match p with
  | EmptyString => true
  | String a p' =>
      match s with
      | EmptyString => false
      | String b s' => Ascii.eqb a b && starts_with p' s'
      end
  end.

(** [needle in hay]: [needle] starts at some position of [hay]. *)
Fixpoint str_in (needle hay : string) : bool :=
  starts_with needle hay ||
  match hay with
  | EmptyString => false
  | String _ t => str_in needle t
  end.

(** [s.split()]: the maximal runs of non-whitespace characters.
    [cur] is the run being read, in reverse. *)
Definition flush (cur : list ascii) (acc : list string) : list string :=
  match cur with
  | [] => acc
  | _ => string_of_list_ascii (rev cur) :: acc
  end.

Fixpoint split_go (s : string) (cur : list ascii) : list string :=
  match s with
  | EmptyString => flush cur []
  | String c t =>
      if py_isspace c then flush cur (split_go t [])
      else split_go t (c :: cur)
  end.

Definition split (s : string) : list string := split_go s [].

(** [s.strip()] *)
Fixpoint lstrip (s : string) : string :=
  match s with
  | EmptyString => EmptyString
  | String c t => if py_isspace c then lstrip t else s
  end.

Fixpoint rstrip (s : string) : string :=
  match s with
  | EmptyString => EmptyString
  | String c t =>
      match rstrip t with
      | EmptyString => if py_isspace c then EmptyString else String c EmptyString
      | t' => String c t'
      end
  end.

Definition strip (s : string) : string := rstrip (lstrip s).

(** [s.replace(old, "")] for a non-empty [old]: every occurrence found
    scanning left to right is dropped.  [skip] counts the characters of
    an occurrence still to drop. *)
Fixpoint remove_go (old s : string) (skip : nat) : string :=
  match s with
  | EmptyString => EmptyString
  | String c t =>
      match skip with
      | S k => remove_go old t k
      | O =>
          if starts_with old s then remove_go old t (Nat.pred (String.length old))
          else String c (remove_go old t O)
      end
  end.

Definition remove_all (old s : string) : string := remove_go old s O.

(** [str(n)] for an [int]. *)
Definition str_of_int (z : Z) : string := NilZero.string_of_int (Z.to_int z).

End PyStr.

Import PyStr.

(** ** Values, leads and offers *)

(** A value of a lead record, as [pandas] hands it over in [lead.to_dict()].
    A float is kept as the two things the scorer observes of it: the text
    [str] gives for it and its truth value (a NaN, the marker of a missing
    cell, is [PyFloat "nan" true]). *)
Inductive pyval : Type :=
  | PyNone
  | PyBool (b : bool)
  | PyInt (z : Z)
  | PyFloat (repr : string) (nonzero : bool)
  | PyStr (s : string).

(** [str(v)] *)
Definition py_str (v : pyval) : string :=
  match v with
  | PyNone => "None"
  | PyBool true => "True"
  | PyBool false => "False"
  | PyInt z => str_of_int z
  | PyFloat repr _ => repr
  | PyStr s => s
  end.

(** [bool(v)] *)
Definition truthy (v : pyval) : bool :=
  match v with
  | PyNone => false
  | PyBool b => b
  | PyInt z => negb (z =? 0)
  | PyFloat _ nonzero => nonzero
  | PyStr s => negb (String.eqb s EmptyString)
  end.

Abbreviation lead := (gmap string pyval).

(** [lead.get(col)] is [l !! col], with [None] for Python's [None];
    [lead.get(col, default)]: *)
Definition get_default (l : lead) (col : string) (default : pyval) : pyval :=
  match l !! col with
  | Some v => v
  | None => default
  end.

(** The truth value of [lead.get(col)]. *)
Definition get_truthy (l : lead) (col : string) : bool :=
  match l !! col with
  | Some v => truthy v
  | None => false
  end.

(** [class Offer(BaseModel)] *)
Record Offer : Type := mkOffer {
  name : string;
  value_props : list string;
  ideal_use_cases : list string
}.

(** The [offer: dict] the scorers receive is [OFFER_DATA]: the empty dict
    the module starts with ([None]) or [offer.dict()] of an uploaded
    [Offer] ([Some o]). *)
Abbreviation offer_dict := (option Offer).

(** [xs[i]] on a list *)
Definition py_index {A : Type} (xs : list A) (i : nat) : pyresult A :=
  match nth_error xs i with
  | Some x => Ok x
  | None => Raise IndexError
  end.

(** ** Rule-based scoring *)

Definition tier_a : list string := ["head"; "director"; "vp"; "founder"; "ceo"].
Definition tier_b : list string := ["manager"; "lead"; "specialist"].
Definition required_columns : list string :=
  ["name"; "role"; "company"; "industry"; "location"; "linkedin_bio"].

(** [any(k in text for k in keywords)] *)
Definition any_in (keywords : list string) (text : string) : bool :=
  existsb (fun k => str_in k text) keywords.

(** Lines 89-93: the role block, from the score so far to the score after. *)
Definition seniority_step (l : lead) (score : Z) : Z :=
  let role := lower (py_str (get_default l "role" (PyStr EmptyString))) in
  if any_in tier_a role then score + 20
  else if any_in tier_b role then score + 10
  else score.

(** Lines 95-101: the industry block. *)
Definition industry_step (l : lead) (offer : offer_dict) (score : Z) : pyresult Z :=
  let industry := lower (py_str (get_default l "industry" (PyStr EmptyString))) in
  match offer with
  | None => Ok score
  | Some o =>
      match ideal_use_cases o with
      | [] => Ok score
      | _ :: _ =>
          first ← py_index (ideal_use_cases o) 0;
          let icp := lower first in
          if str_in icp industry then Ok (score + 20)
          else if any_in (split icp) industry then Ok (score + 10)
          else Ok score
      end
  end.

(** Lines 103-104: the completeness block. *)
Definition completeness_step (l : lead) (score : Z) : Z :=
  if forallb (get_truthy l) required_columns then score + 10 else score.

Definition rule_based_score (l : lead) (offer : offer_dict) : pyresult Z :=
  let score := 0 in
  let score := seniority_step l score in
  score ← industry_step l offer score;
  let score := completeness_step l score in
  Ok score.

(** What each block adds to the score. *)
Definition seniority_points (l : lead) : Z := seniority_step l 0.

Definition industry_points (l : lead) (offer : offer_dict) : Z :=
  match industry_step l offer 0 with
  | Ok points => points
  | Raise _ => 0
  end.

Definition completeness_points (l : lead) : Z := completeness_step l 0.

(** The text the role block works on, before lower-casing. *)
Definition role_text (l : lead) : string :=
  py_str (get_default l "role" (PyStr EmptyString)).

(** [kw] occurs in [text] up to the case of letters: some stretch of
    [text] has the same lower case as [kw]. *)
Definition contains_ci (kw text : string) : Prop :=
  exists pre mid post : string, text = pre +:+ mid +:+ post /\ lower mid = lower kw.

Definition mentions (keywords : list string) (text : string) : Prop :=
  exists kw : string, In kw keywords /\ contains_ci kw text.

(** A column is filled when the lead has it with a truthy value. *)
Definition field_filled (l : lead) (col : string) : Prop :=
  exists v : pyval, l !! col = Some v /\ truthy v = true.

(** ** JSON values and the completion service *)

(** What [json.loads] returns.  A number is kept as its literal: the
    pipeline never computes with one.  An object is the list of the items
    of the resulting [dict]. *)
#[local] Unset Elimination Schemes.
Inductive json : Type :=
  | JNull
  | JBool (b : bool)
  | JNumber (literal : string)
  | JString (s : string)
  | JArray (items : list json)
  | JObject (members : list (string * json)).
#[local] Set Elimination Schemes.

(** [isinstance(data, dict)] *)
Definition is_dict (data : json) : bool :=
  match data with
  | JObject _ => true
  | _ => false
  end.

Definition dict_items (data : json) : list (string * json) :=
  match data with
  | JObject members => members
  | _ => []
  end.

(** [key in d] for a dict [d] *)
Definition key_in (key : string) (d : json) : bool :=
  existsb (fun kv => String.eqb (fst kv) key) (dict_items d).

Fixpoint assoc {A : Type} (key : string) (items : list (string * A)) : option A :=
  match items with
  | [] => None
  | (k, v) :: rest => if String.eqb k key then Some v else assoc key rest
  end.

(** [d.get(key, default)]; only a dict has the method. *)
Definition dict_get (d : json) (key : string) (default : json) : pyresult json :=
  match d with
  | JObject members =>
      match assoc key members with
      | Some v => Ok v
      | None => Ok default
      end
  | _ => Raise AttributeError
  end.

(** The arguments of [client.chat.completions.create]. *)
Record request : Type := mkRequest {
  model : string;
  messages : list (string * string);
  temperature : string
}.

(** A configured client: what [create] does with a request.  It raises, or
    answers with choices, each carrying [message.content] (a text, or
    [None]). *)
Abbreviation Client := (request -> pyresult (list (option string))).

(** Lines 54-59: the client the module builds from [OPENAI_API_KEY]. *)
Definition init_client (OpenAI : string -> Client) (api_key : option string) : option Client :=
  match api_key with
  | None => None
  | Some key => if String.eqb key EmptyString then None else Some (OpenAI key)
  end.

Definition fallback_not_configured : json :=
  JObject [("intent", JString "Medium");
           ("reasoning", JString "AI not configured; using default reasoning.")].

Definition fallback_ai_error : json :=
  JObject [("intent", JString "Medium");
           ("reasoning", JString "Default reasoning due to AI error.")].

Definition system_content : string :=
  "You are an expert B2B lead qualification assistant.".

(** ** Combining the two scores *)

(** Line 174: [{"High": 50, "Medium": 30, "Low": 10}.get(intent, 30)].
    Looking a key up hashes it first, and a list or a dict has no hash. *)
Definition intent_points : list (string * Z) := [("High", 50); ("Medium", 30); ("Low", 10)].

Definition points_get (intent : json) (default : Z) : pyresult Z :=
  match intent with
  | JArray _ | JObject _ => Raise TypeError
  | JString label =>
      match assoc label intent_points with
      | Some points => Ok points
      | None => Ok default
      end
  | JNull | JBool _ | JNumber _ => Ok default
  end.

(** Lines 174-175 *)
Definition combine (rule_score : Z) (intent : json) : pyresult Z :=
  ai_points ← points_get intent 30;
  let final_score := rule_score + ai_points in
  Ok final_score.

Record ScoredLead : Type := mkScoredLead {
  sl_name : pyval;
  sl_role : pyval;
  sl_company : pyval;
  sl_intent : json;
  sl_score : Z;
  sl_reasoning : json
}.

(** The three module globals. [OFFER_DATA] is [None] for the empty dict. *)
Record Session : Type := mkSession {
  OFFER_DATA : offer_dict;
  LEADS_DF : option (list lead);
  RESULTS : list ScoredLead
}.

(** What a handler hands back to the framework: its return value, an
    [HTTPException], or an exception nobody caught. *)
Inductive outcome (A : Type) : Type :=
  | Returned (a : A)
  | HTTPException (status_code : Z) (detail : string)
  | Uncaught (e : exn).

Arguments Returned {A} a.
Arguments HTTPException {A} status_code detail.
Arguments Uncaught {A} e.

(** A result as the contract of the classifier words it: the intent is one
    of the three labels and the reasoning is a string. *)
Definition intent_labels : list string := ["High"; "Medium"; "Low"].

Definition labelled (data : json) : Prop :=
  (exists label : string,
     In label intent_labels /\ assoc "intent" (dict_items data) = Some (JString label)) /\
  (exists text : string, assoc "reasoning" (dict_items data) = Some (JString text)).

Section Classifier.

(** [json.loads], and [json.dumps(_, ensure_ascii=False)] on an offer and
    on a lead. *)
Variable json_loads : string -> pyresult json.
Variable json_dumps_offer : offer_dict -> string.
Variable json_dumps_lead : lead -> string.

(** Lines 116-127.  The dash of the source text is outside the 0..255
    range and written as a hyphen here; the prompt is only handed to the
    service. *)
Definition build_prompt (l : lead) (offer : offer_dict) : string :=
  "
    You are a B2B sales assistant. Based on the following lead and offer,
    classify the buying intent as High, Medium, or Low,
    and explain in 1-2 short sentences.

    Respond ONLY in valid JSON with keys:
    - intent
    - reasoning

    Offer: " +:+ json_dumps_offer offer +:+ "
    Lead: " +:+ json_dumps_lead l +:+ "
    ".

Definition build_request (l : lead) (offer : offer_dict) : request :=
  {| model := "gpt-4o-mini";
     messages := [("system", system_content); ("user", build_prompt l offer)];
     temperature := "0.4" |}.

(** Line 139: [response.choices[0].message.content.strip()] *)
Definition response_text (choices : list (option string)) : pyresult string :=
  content ← py_index choices 0;
  match content with
  | Some text => Ok (strip text)
  | None => Raise AttributeError
  end.

(** Lines 142-143 *)
Definition remove_markdown (text : string) : string :=
  if starts_with "```json" text
  then strip (remove_all "```" (remove_all "```json" text))
  else text.

(** Lines 145-149 *)
Definition parse_response (text : string) : pyresult json :=
  data ← json_loads text;
  if negb (is_dict data) || negb (key_in "intent" data) || negb (key_in "reasoning" data)
  then Raise ValueError
  else Ok data.

(** The body of the [try] block, lines 130-149. *)
Definition ask (client : Client) (l : lead) (offer : offer_dict) : pyresult json :=
  choices ← client (build_request l offer);
  text ← response_text choices;
  parse_response (remove_markdown text).

(** [ai_score_and_reason], with the requests it sent to the service. *)
Definition ai_score_and_reason (client : option Client) (l : lead) (offer : offer_dict)
  : list request * pyresult json :=
  match client with
  | None => ([], Ok fallback_not_configured)
  | Some c =>
      ([build_request l offer],
       Ok (try_except (ask c l offer) (fun _ => fallback_ai_error)))
  end.

(** The ways a call to a configured client fails: [create] raises; the
    response has no first choice or no text in it; the text, once the code
    fence is removed, is refused by [json.loads]; what it parses to is not
    a dict; the dict lacks one of the two keys. *)
Inductive ai_failure (client : Client) (l : lead) (offer : offer_dict) : Prop :=
  | service_raises (e : exn) :
      client (build_request l offer) = Raise e ->
      ai_failure client l offer
  | no_text (choices : list (option string)) (e : exn) :
      client (build_request l offer) = Ok choices ->
      response_text choices = Raise e ->
      ai_failure client l offer
  | invalid_json (choices : list (option string)) (text : string) (e : exn) :
      client (build_request l offer) = Ok choices ->
      response_text choices = Ok text ->
      json_loads (remove_markdown text) = Raise e ->
      ai_failure client l offer
  | not_a_mapping (choices : list (option string)) (text : string) (data : json) :
      client (build_request l offer) = Ok choices ->
      response_text choices = Ok text ->
      json_loads (remove_markdown text) = Ok data ->
      is_dict data = false ->
      ai_failure client l offer
  | key_missing (choices : list (option string)) (text : string) (data : json) :
      client (build_request l offer) = Ok choices ->
      response_text choices = Ok text ->
      json_loads (remove_markdown text) = Ok data ->
      key_in "intent" data = false \/ key_in "reasoning" data = false ->
      ai_failure client l offer.

(** ** The [/score] handler *)

(** Lines 166-184: one turn of the loop, up to the record appended. *)
Definition score_one (client : option Client) (offer : offer_dict) (l : lead)
  : pyresult ScoredLead :=
  rule_score ← rule_based_score l offer;
  ai_data ← snd (ai_score_and_reason client l offer);
  intent ← dict_get ai_data "intent" (JString "Medium");
  reasoning ← dict_get ai_data "reasoning" (JString EmptyString);
  final_score ← combine rule_score intent;
  Ok {| sl_name := get_default l "name" PyNone;
        sl_role := get_default l "role" PyNone;
        sl_company := get_default l "company" PyNone;
        sl_intent := intent;
        sl_score := final_score;
        sl_reasoning := reasoning |}.

(** The loop over the rows: [results] is the global [RESULTS] as the
    appends have left it, also when a turn raises. *)
Fixpoint score_loop (client : option Client) (offer : offer_dict) (rows : list lead)
    (results : list ScoredLead) : list ScoredLead * pyresult unit :=
  match rows with
  | [] => (results, Ok tt)
  | l :: rest =>
      match score_one client offer l with
      | Ok scored => score_loop client offer rest (results ++ [scored])
      | Raise e => (results, Raise e)
      end
  end.

Definition set_results (s : Session) (results : list ScoredLead) : Session :=
  {| OFFER_DATA := OFFER_DATA s; LEADS_DF := LEADS_DF s; RESULTS := results |}.

(** [not OFFER_DATA] *)
Definition offer_empty (offer : offer_dict) : bool :=
  match offer with
  | None => true
  | Some _ => false
  end.

(** [LEADS_DF is None] *)
Definition leads_is_none (df : option (list lead)) : bool :=
  match df with
  | None => true
  | Some _ => false
  end.

(** [score_leads], lines 158-186. *)
Definition score_leads (client : option Client) (s : Session)
  : Session * outcome (list ScoredLead) :=
  if leads_is_none (LEADS_DF s) || offer_empty (OFFER_DATA s)
  then (s, HTTPException 400 "Please upload both offer and leads first.")
  else
    let rows := default [] (LEADS_DF s) in
    let '(results, finished) := score_loop client (OFFER_DATA s) rows [] in
    match finished with
    | Ok _ => (set_results s results, Returned results)
    | Raise e => (set_results s results, Uncaught e)
    end.

End Classifier.

(** ** A reader for JSON texts

    The properties below hold for whatever [json.loads] does.  To run the
    classifier on concrete response texts, this module reads the JSON
    grammar as Python's decoder does, apart from [\u] escapes, whose code
    points may lie outside the 0..255 range of the string model: a text
    with one is refused. *)

Module JsonReader.

Definition dquote : ascii := ascii_of_N 34.
Definition backslash : ascii := ascii_of_N 92.

(** [q s] is [s] between double quotes. *)
Definition q (s : string) : string :=
  String dquote (s +:+ String dquote EmptyString).

Definition json_ws (c : ascii) : bool :=
  let n := code c in ((n =? 32) || (n =? 9) || (n =? 10) || (n =? 13))%N.

Fixpoint skip_ws (s : string) : string :=
  match s with
  | EmptyString => EmptyString
  | String c t => if json_ws c then skip_ws t else s
  end.

Fixpoint drop_chars (n : nat) (s : string) : string :=
  match n, s with
  | S k, String _ t => drop_chars k t
  | _, _ => s
  end.

Definition is_digit (c : ascii) : bool := ((48 <=? code c) && (code c <=? 57))%N.

(** The longest run of digits at the front, and what follows it. *)
Fixpoint span_digits (s : string) : string * string :=
  match s with
  | String c t =>
      if is_digit c then let '(ds, rest) := span_digits t in (String c ds, rest)
      else (EmptyString, s)
  | EmptyString => (EmptyString, EmptyString)
  end.

Definition unescape (c : ascii) : option ascii :=
  if Ascii.eqb c dquote then Some dquote
  else if Ascii.eqb c backslash then Some backslash
  else if Ascii.eqb c "/" then Some "/"%char
  else if Ascii.eqb c "b" then Some (ascii_of_N 8)
  else if Ascii.eqb c "f" then Some (ascii_of_N 12)
  else if Ascii.eqb c "n" then Some (ascii_of_N 10)
  else if Ascii.eqb c "r" then Some (ascii_of_N 13)
  else if Ascii.eqb c "t" then Some (ascii_of_N 9)
  else None.

(** The characters of a string after its opening quote, up to the closing
    one, and the text after that. *)
Fixpoint read_string (s : string) : option (string * string) :=
  match s with
  | EmptyString => None
  | String c t =>
      if Ascii.eqb c dquote then Some (EmptyString, t)
      else if Ascii.eqb c backslash then
        match t with
        | String e t' =>
            match unescape e, read_string t' with
            | Some ch, Some (body, rest) => Some (String ch body, rest)
            | _, _ => None
            end
        | EmptyString => None
        end
      else if (code c <? 32)%N then None
      else
        match read_string t with
        | Some (body, rest) => Some (String c body, rest)
        | None => None
        end
  end.

(** A number: an optional minus sign; 0, or a digit 1-9 and more digits;
    optionally a dot and digits; optionally e or E, a sign and digits. *)
Definition read_int_part (s : string) : option (string * string) :=
  match s with
  | String c t =>
      if Ascii.eqb c "0" then Some ("0", t)
      else if is_digit c then Some (span_digits s)
      else None
  | EmptyString => None
  end.

Definition read_frac_part (s : string) : string * string :=
  match s with
  | String c t =>
      if Ascii.eqb c "." then
        match span_digits t with
        | (EmptyString, _) => (EmptyString, s)
        | (ds, rest) => (String c ds, rest)
        end
      else (EmptyString, s)
  | EmptyString => (EmptyString, s)
  end.

Definition read_exp_part (s : string) : string * string :=
  match s with
  | String c t =>
      if Ascii.eqb c "e" || Ascii.eqb c "E" then
        let '(sign, t') :=
          match t with
          | String g u =>
              if Ascii.eqb g "+" || Ascii.eqb g "-" then (String g EmptyString, u)
              else (EmptyString, t)
          | EmptyString => (EmptyString, t)
          end in
        match span_digits t' with
        | (EmptyString, _) => (EmptyString, s)
        | (ds, rest) => (String c (sign +:+ ds), rest)
        end
      else (EmptyString, s)
  | EmptyString => (EmptyString, s)
  end.

Definition read_number (s : string) : option (string * string) :=
  let '(sign, s1) :=
    match s with
    | String c t => if Ascii.eqb c "-" then ("-", t) else (EmptyString, s)
    | EmptyString => (EmptyString, s)
    end in
  '(int, s2) ← read_int_part s1;
  let '(frac, s3) := read_frac_part s2 in
  let '(exp, s4) := read_exp_part s3 in
  Some (sign +:+ int +:+ frac +:+ exp, s4).

(** [d[key] = v] *)
Fixpoint dict_set (d : list (string * json)) (key : string) (v : json) : list (string * json) :=
  match d with
  | [] => [(key, v)]
  | (k, w) :: rest =>
      if String.eqb k key then (k, v) :: rest else (k, w) :: dict_set rest key v
  end.

Definition read_literal (s : string) : option (json * string) :=
  if starts_with "null" s then Some (JNull, drop_chars 4 s)
  else if starts_with "true" s then Some (JBool true, drop_chars 4 s)
  else if starts_with "false" s then Some (JBool false, drop_chars 5 s)
  else if starts_with "NaN" s then Some (JNumber "NaN", drop_chars 3 s)
  else if starts_with "Infinity" s then Some (JNumber "Infinity", drop_chars 8 s)
  else if starts_with "-Infinity" s then Some (JNumber "-Infinity", drop_chars 9 s)
  else '(literal, rest) ← read_number s; Some (JNumber literal, rest).

Fixpoint read_value (fuel : nat) (s : string) : option (json * string) :=
  match fuel with
  | O => None
  | S n =>
      match skip_ws s with
      | EmptyString => None
      | String c t as s' =>
          if Ascii.eqb c dquote then
            '(body, rest) ← read_string t; Some (JString body, rest)
          else if Ascii.eqb c "{" then
            match skip_ws t with
            | String c2 t2 =>
                if Ascii.eqb c2 "}" then Some (JObject [], t2) else read_members n t []
            | EmptyString => None
            end
          else if Ascii.eqb c "[" then
            match skip_ws t with
            | String c2 t2 =>
                if Ascii.eqb c2 "]" then Some (JArray [], t2) else read_items n t []
            | EmptyString => None
            end
          else read_literal s'
      end
  end
with read_items (fuel : nat) (s : string) (acc : list json) : option (json * string) :=
  match fuel with
  | O => None
  | S n =>
      '(v, rest) ← read_value n s;
      match skip_ws rest with
      | String c t =>
          if Ascii.eqb c "," then read_items n t (acc ++ [v])
          else if Ascii.eqb c "]" then Some (JArray (acc ++ [v]), t)
          else None
      | EmptyString => None
      end
  end
with read_members (fuel : nat) (s : string) (acc : list (string * json))
    : option (json * string) :=
  match fuel with
  | O => None
  | S n =>
      match skip_ws s with
      | String c t =>
          if Ascii.eqb c dquote then
            '(key, rest) ← read_string t;
            match skip_ws rest with
            | String c2 t2 =>
                if Ascii.eqb c2 ":" then
                  '(v, rest2) ← read_value n t2;
                  match skip_ws rest2 with
                  | String c3 t3 =>
                      if Ascii.eqb c3 "," then read_members n t3 (dict_set acc key v)
                      else if Ascii.eqb c3 "}" then Some (JObject (dict_set acc key v), t3)
                      else None
                  | EmptyString => None
                  end
                else None
            | EmptyString => None
            end
          else None
      | EmptyString => None
      end
  end.

Definition loads (s : string) : pyresult json :=
  match read_value (S (String.length s)) s with
  | Some (v, rest) =>
      match skip_ws rest with
      | EmptyString => Ok v
      | String _ _ => Raise JSONDecodeError
      end
  | None => Raise JSONDecodeError
  end.

End JsonReader.

(** ** The other handlers *)

(** Lines 65-69: [upload_offer]. *)
Definition upload_offer (offer : Offer) (s : Session)
  : Session * outcome (string * offer_dict) :=
  let s' := {| OFFER_DATA := Some offer; LEADS_DF := LEADS_DF s; RESULTS := RESULTS s |} in
  (s', Returned ("Offer data uploaded successfully", OFFER_DATA s')).

(** What a step inside [try: ... except Exception as e:] comes to: a value,
    or an exception, kept as the text [str(e)] the handler formats. *)
Inductive attempt (A : Type) : Type :=
  | Done (a : A)
  | Failed (message : string).

Arguments Done {A} a.
Arguments Failed {A} message.

Section UploadFile.

(** [pd.read_csv(io.BytesIO(contents))]: the rows of the table in file
    order, or the exception. *)
Variable read_csv : string -> attempt (list lead).

(** Lines 74-82: [upload_leads]; [file_read] is what [await file.read()]
    comes to.  The reply carries the message and [len(LEADS_DF)]. *)
Definition upload_leads (file_read : attempt string) (s : Session)
  : Session * outcome (string * Z) :=
  match file_read with
  | Failed message => (s, HTTPException 400 ("Error reading CSV: " +:+ message))
  | Done contents =>
      match read_csv contents with
      | Failed message => (s, HTTPException 400 ("Error reading CSV: " +:+ message))
      | Done rows =>
          let s' := {| OFFER_DATA := OFFER_DATA s; LEADS_DF := Some rows;
                       RESULTS := RESULTS s |} in
          (s', Returned ("Leads uploaded successfully", Z.of_nat (length rows)))
      end
  end.

End UploadFile.

(** [not RESULTS] *)
Definition results_empty (results : list ScoredLead) : bool :=
  match results with
  | [] => true
  | _ :: _ => false
  end.

(** Lines 191-195: [get_results]. *)
Definition get_results (s : Session) : outcome (list ScoredLead) :=
  if results_empty (RESULTS s)
  then HTTPException 400 "No scored results available. Run /score first."
  else Returned (RESULTS s).

Record FileResponse : Type := mkFileResponse {
  path : string;
  filename : string;
  media_type : string
}.

Section ExportFile.

(** [pd.DataFrame(results).to_csv(_, index=False)]: the text written. *)
Variable to_csv : list ScoredLead -> string.

(** Lines 200-207: [export_results], on the files of the working
    directory, by name. *)
Definition export_results (s : Session) (files : gmap string string)
  : gmap string string * outcome FileResponse :=
  if results_empty (RESULTS s)
  then (files, HTTPException 400 "No scored results available to export.")
  else
    let file_path := "scored_leads.csv" in
    (<[file_path := to_csv (RESULTS s)]> files,
     Returned {| path := file_path; filename := "scored_leads.csv";
                 media_type := "text/csv" |}).

End ExportFile.

(** ** Notions the properties are stated with *)

(** The text the industry block works on, before lower-casing. *)
Definition industry_text (l : lead) : string :=
  py_str (get_default l "industry" (PyStr EmptyString)).

Fixpoint all_chars (p : ascii -> bool) (s : string) : bool :=
  match s with
  | EmptyString => true
  | String c t => p c && all_chars p t
  end.

Definition backtick : ascii := "`"%char.

Definition no_backtick (s : string) : bool :=
  all_chars (fun c => negb (Ascii.eqb c backtick)) s.

Definition no_space (s : string) : bool := all_chars (fun c => negb (py_isspace c)) s.

Definition all_space (s : string) : bool := all_chars py_isspace s.

(** A text inside a code fence, with [w1] and [w2] between the markers
    and the text. *)
Definition fenced (w1 body w2 : string) : string :=
  "```json" +:+ w1 +:+ body +:+ w2 +:+ "```".

(** A value Python can hash: anything but a list or a dict. *)
Definition hashable (v : json) : bool :=
  match v with
  | JArray _ | JObject _ => false
  | _ => true
  end.

(** The record a lead gets when no client is configured. *)
Definition scored_by_rules (offer : offer_dict) (l : lead) : ScoredLead :=
  {| sl_name := get_default l "name" PyNone;
     sl_role := get_default l "role" PyNone;
     sl_company := get_default l "company" PyNone;
     sl_intent := JString "Medium";
     sl_score := seniority_points l + industry_points l offer + completeness_points l + 30;
     sl_reasoning := JString "AI not configured; using default reasoning." |}.

Section PassNotions.

Variable json_loads : string -> pyresult json.
Variable json_dumps_offer : offer_dict -> string.
Variable json_dumps_lead : lead -> string.

(** What the classifier answers for a lead, and the intent and reasoning
    the handler reads from the answer. *)
Definition answer_of (client : option Client) (offer : offer_dict) (l : lead) : json :=
  match snd (ai_score_and_reason json_loads json_dumps_offer json_dumps_lead client l offer) with
  | Ok data => data
  | Raise _ => JNull
  end.

Definition intent_of (client : option Client) (offer : offer_dict) (l : lead) : json :=
  default (JString "Medium") (assoc "intent" (dict_items (answer_of client offer l))).

Definition reasoning_of (client : option Client) (offer : offer_dict) (l : lead) : json :=
  default (JString EmptyString) (assoc "reasoning" (dict_items (answer_of client offer l))).

(** The points of an intent that can be looked up. *)
Definition points_of (intent : json) : Z :=
  match points_get intent 30 with
  | Ok points => points
  | Raise _ => 0
  end.

(** The record of a lead whose intent can be looked up. *)
Definition scored_with (client : option Client) (offer : offer_dict) (l : lead) : ScoredLead :=
  {| sl_name := get_default l "name" PyNone;
     sl_role := get_default l "role" PyNone;
     sl_company := get_default l "company" PyNone;
     sl_intent := intent_of client offer l;
     sl_score := seniority_points l + industry_points l offer + completeness_points l
                 + points_of (intent_of client offer l);
     sl_reasoning := reasoning_of client offer l |}.

(** The rows before the first one whose intent has no hash. *)
Fixpoint scorable_prefix (client : option Client) (offer : offer_dict) (rows : list lead)
  : list lead :=
  match rows with
  | [] => []
  | l :: rest =>
      if hashable (intent_of client offer l)
      then l :: scorable_prefix client offer rest
      else []
  end.

End PassNotions.

(** * Sample inputs *)

(** The end-to-end scenario of the specification. *)
Definition lead_acme : lead :=
  <["name" := PyStr "A"]> (<["role" := PyStr "VP Sales"]> (<["company" := PyStr "Acme"]>
  (<["industry" := PyStr "Finance"]> (<["location" := PyStr "NY"]>
  (<["linkedin_bio" := PyStr "bio"]> ∅))))).

Definition offer_x : Offer :=
  {| name := "X"; value_props := ["a"]; ideal_use_cases := ["finance software"] |}.

(** The same offer with a second use case. *)
Definition offer_x2 : Offer :=
  {| name := "X"; value_props := ["a"];
     ideal_use_cases := ["finance software"; "retail analytics"] |}.

(** A lead with a Tier-B title and no location. *)
Definition lead_manager : lead :=
  <["name" := PyStr "B"]> (<["role" := PyStr "Account Manager"]> (<["company" := PyStr "Bolt"]>
  (<["industry" := PyStr "Retail"]> (<["linkedin_bio" := PyStr "bio"]> ∅)))).

(** An offer whose first use case is the empty string, and a lead with no
    columns at all. *)
Definition offer_blank : Offer :=
  {| name := "Y"; value_props := []; ideal_use_cases := [EmptyString; "logistics"] |}.

Definition lead_empty : lead := ∅.

(** Clients: one whose call raises, one that answers with a given text. *)
Definition client_down : Client := fun _ => Raise APIError.

Definition client_says (text : string) : Client := fun _ => Ok [Some text].

Definition newline : string := String (ascii_of_N 10) EmptyString.

Import JsonReader.

(** [{"intent": "Maybe", "reasoning": 5}] *)
Definition reply_maybe : string :=
  "{" +:+ q "intent" +:+ ": " +:+ q "Maybe" +:+ ", " +:+ q "reasoning" +:+ ": 5}".

(** [{"intent": "High", "reasoning": "Senior buyer."}] inside a code fence *)
Definition reply_fenced : string :=
  "```json" +:+ newline +:+
  "{" +:+ q "intent" +:+ ": " +:+ q "High" +:+ ", " +:+ q "reasoning" +:+ ": "
      +:+ q "Senior buyer." +:+ "}" +:+ newline +:+ "```".

(** [{"intent": "High"}] *)
Definition reply_no_reasoning : string := "{" +:+ q "intent" +:+ ": " +:+ q "High" +:+ "}".

(** [["High", "fits"]] *)
Definition reply_array : string := "[" +:+ q "High" +:+ ", " +:+ q "fits" +:+ "]".

Definition reply_prose : string := "The intent is High.".

(** [{"intent": ["High"], "reasoning": "fits"}] *)
Definition reply_list_intent : string :=
  "{" +:+ q "intent" +:+ ": [" +:+ q "High" +:+ "], " +:+ q "reasoning" +:+ ": "
      +:+ q "fits" +:+ "}".

(** The serialisers are only used to fill the prompt. *)
Definition dumps_elided {A : Type} (_ : A) : string := "{...}".

Definition scored_before : ScoredLead :=
  {| sl_name := PyStr "Z"; sl_role := PyStr "CEO"; sl_company := PyStr "Old";
     sl_intent := JString "High"; sl_score := 90; sl_reasoning := JString "earlier pass" |}.

(** An offer, an uploaded batch with no rows, and the results of an earlier pass. *)
Definition session_empty_batch : Session :=
  {| OFFER_DATA := Some offer_x; LEADS_DF := Some []; RESULTS := [scored_before] |}.

(** Results of an earlier pass, an offer, and no batch. *)
Definition session_no_leads : Session :=
  {| OFFER_DATA := Some offer_x; LEADS_DF := None; RESULTS := [scored_before] |}.

Definition session_no_offer : Session :=
  {| OFFER_DATA := None; LEADS_DF := Some [lead_acme]; RESULTS := [scored_before] |}.

Definition session_ready : Session :=
  {| OFFER_DATA := Some offer_x; LEADS_DF := Some [lead_acme; lead_manager];
     RESULTS := [scored_before] |}.

(** The scenario's lead with other letter case, and other values in the
    columns the scorer only tests for presence. *)
Definition lead_acme_shouting : lead :=
  <["name" := PyStr "Someone Else"]> (<["role" := PyStr "vp SALES"]>
  (<["company" := PyInt 7]> (<["industry" := PyStr "FINANCE"]>
  (<["location" := PyFloat "nan" true]> (<["linkedin_bio" := PyBool true]> ∅))))).

Definition offer_x_shouting : Offer :=
  {| name := "Other"; value_props := []; ideal_use_cases := ["Finance SOFTWARE"; "x"] |}.

Definition offer_one_word : Offer :=
  {| name := "W"; value_props := []; ideal_use_cases := ["Fintech"] |}.

Definition offer_no_use_case : Offer :=
  {| name := "N"; value_props := ["a"]; ideal_use_cases := [] |}.

(** A serialiser that tells the leads apart by their role, and a client
    that answers with a list for an intent when the prompt mentions a
    manager, and with a fenced High otherwise. *)
Definition dumps_role (l : lead) : string := py_str (get_default l "role" PyNone).

Definition client_picky : Client := fun req =>
  if existsb (fun message => str_in "Manager" (snd message)) (messages req)
  then Ok [Some reply_list_intent]
  else Ok [Some reply_fenced].

(** A stand-in for the CSV reader: one text it accepts, with two rows. *)
Definition read_csv_sample (contents : string) : attempt (list lead) :=
  if String.eqb contents "two rows" then Done [lead_acme; lead_manager]
  else Failed "No columns to parse from file".

(** A stand-in for the CSV writer: the scores, one per line. *)
Definition to_csv_sample (results : list ScoredLead) : string :=
  String.concat newline (map (fun r => str_of_int (sl_score r)) results).

Definition session_fresh : Session :=
  {| OFFER_DATA := None; LEADS_DF := None; RESULTS := [] |}.

(** * Properties *)

(** ** Strings *)

Example lower_ex : lower "VP Sales" = "vp sales".
Proof. reflexivity. Qed.

Example split_ex : split "  finance   software " = ["finance"; "software"].
Proof. reflexivity. Qed.

Example strip_ex : strip "  a b  " = "a b".
Proof. reflexivity. Qed.

Example remove_ex : remove_all "ab" "xabyababz" = "xyz".
Proof. reflexivity. Qed.

Example str_of_int_ex : str_of_int (-120) = "-120" /\ str_of_int 0 = "0".
Proof. split; reflexivity. Qed.

Lemma starts_with_app (p s : string) :
  starts_with p s = true <-> exists post : string, s = p +:+ post.
Proof.
  revert s. induction p as [|a p IH]; intros s; simpl.
  - split; [intros _; exists s; reflexivity | reflexivity].
  - destruct s as [|b s].
    + split; [discriminate | intros [post H]; discriminate].
    + rewrite andb_true_iff, Ascii.eqb_eq, IH. split.
      * intros [-> [post ->]]. exists post. reflexivity.
      * intros [post H]. inversion H. split; [reflexivity | exists post; reflexivity].
Qed.

Lemma str_in_app (needle hay : string) :
  str_in needle hay = true <-> exists pre post : string, hay = pre +:+ needle +:+ post.
Proof.
  induction hay as [|c hay IH]; simpl.
  - rewrite orb_false_r, starts_with_app. split.
    + intros [post H]. exists EmptyString, post. exact H.
    + intros [pre [post H]]. destruct pre; [exists post; exact H | discriminate].
  - rewrite orb_true_iff, starts_with_app, IH. split.
    + intros [[post H] | [pre [post H]]].
      * exists EmptyString, post. exact H.
      * exists (String c pre), post. simpl. now rewrite H.
    + intros [pre [post H]]. destruct pre as [|d pre]; simpl in H.
      * left. exists post. exact H.
      * right. inversion H. exists pre, post. reflexivity.
Qed.

Lemma lower_app (a b : string) : lower (a +:+ b) = lower a +:+ lower b.
Proof. induction a as [|c a IH]; simpl; [reflexivity | now rewrite IH]. Qed.

Lemma lower_app_inv (s a b : string) :
  lower s = a +:+ b -> exists a' b' : string, s = a' +:+ b' /\ lower a' = a /\ lower b' = b.
Proof.
  revert s. induction a as [|c a IH]; intros s H; simpl in H.
  - exists EmptyString, s. auto.
  - destruct s as [|d s]; [discriminate|]. simpl in H. inversion H as [[Hc Hs]].
    destruct (IH s Hs) as (a' & b' & -> & <- & <-).
    exists (String d a'), b'. auto.
Qed.

(** The scorer's test (lower-case the text, then look for the keyword) is
    the case-insensitive occurrence of the keyword. *)
Lemma contains_ci_str_in (kw text : string) :
  contains_ci kw text <-> str_in (lower kw) (lower text) = true.
Proof.
  rewrite str_in_app. split.
  - intros (pre & mid & post & -> & Hmid).
    exists (lower pre), (lower post). now rewrite !lower_app, Hmid.
  - intros (pre & post & H).
    destruct (lower_app_inv _ _ _ H) as (pre' & rest & -> & _ & Hrest).
    destruct (lower_app_inv _ _ _ Hrest) as (mid & post' & -> & Hmid & _).
    exists pre', mid, post'. auto.
Qed.

Lemma any_in_exists (keywords : list string) (text : string) :
  any_in keywords text = true <-> exists kw : string, In kw keywords /\ str_in kw text = true.
Proof. unfold any_in. apply existsb_exists. Qed.

Lemma tier_a_lower (kw : string) : In kw tier_a -> lower kw = kw.
Proof. simpl. intuition (subst; reflexivity). Qed.

Lemma tier_b_lower (kw : string) : In kw tier_b -> lower kw = kw.
Proof. simpl. intuition (subst; reflexivity). Qed.

Lemma mentions_tier_a (text : string) :
  mentions tier_a text <-> any_in tier_a (lower text) = true.
Proof.
  rewrite any_in_exists. unfold mentions.
  split; intros (kw & Hin & H); exists kw; split; auto.
  - apply contains_ci_str_in in H. now rewrite (tier_a_lower kw Hin) in H.
  - apply contains_ci_str_in. now rewrite (tier_a_lower kw Hin).
Qed.

Lemma mentions_tier_b (text : string) :
  mentions tier_b text <-> any_in tier_b (lower text) = true.
Proof.
  rewrite any_in_exists. unfold mentions.
  split; intros (kw & Hin & H); exists kw; split; auto.
  - apply contains_ci_str_in in H. now rewrite (tier_b_lower kw Hin) in H.
  - apply contains_ci_str_in. now rewrite (tier_b_lower kw Hin).
Qed.

(** ** The rule-based scorer *)

Example rule_based_score_acme : rule_based_score lead_acme (Some offer_x) = Ok 40.
Proof. vm_compute. reflexivity. Qed.

Lemma seniority_step_points (l : lead) (score : Z) :
  seniority_step l score = score + seniority_points l.
Proof.
  unfold seniority_points, seniority_step.
  destruct (any_in tier_a _); [lia|]. destruct (any_in tier_b _); lia.
Qed.

Lemma industry_step_points (l : lead) (offer : offer_dict) (score : Z) :
  industry_step l offer score = Ok (score + industry_points l offer).
Proof.
  unfold industry_points, industry_step.
  destruct offer as [o|]; [|f_equal; lia].
  destruct (ideal_use_cases o) as [|first rest]; [f_equal; lia|].
  cbn. destruct (str_in _ _); [f_equal; lia|].
  destruct (any_in _ _); f_equal; lia.
Qed.

Lemma completeness_step_points (l : lead) (score : Z) :
  completeness_step l score = score + completeness_points l.
Proof.
  unfold completeness_points, completeness_step.
  destruct (forallb _ _); lia.
Qed.

(** The score is the sum of the three contributions. *)
Lemma rule_based_score_sum (l : lead) (offer : offer_dict) :
  rule_based_score l offer =
  Ok (seniority_points l + industry_points l offer + completeness_points l).
Proof.
  unfold rule_based_score.
  rewrite industry_step_points. cbn.
  rewrite completeness_step_points, seniority_step_points. f_equal.
Qed.

Lemma seniority_points_cases (l : lead) :
  seniority_points l =
  if any_in tier_a (lower (role_text l)) then 20
  else if any_in tier_b (lower (role_text l)) then 10 else 0.
Proof.
  unfold seniority_points, seniority_step, role_text.
  destruct (any_in tier_a _); [reflexivity|]. destruct (any_in tier_b _); reflexivity.
Qed.

Lemma industry_points_range (l : lead) (offer : offer_dict) :
  industry_points l offer = 0 \/ industry_points l offer = 10 \/ industry_points l offer = 20.
Proof.
  unfold industry_points, industry_step.
  destruct offer as [o|]; [|auto].
  destruct (ideal_use_cases o) as [|first rest]; [auto|].
  cbn. destruct (str_in _ _); [auto|]. destruct (any_in _ _); auto.
Qed.

Lemma completeness_points_cases (l : lead) :
  completeness_points l = if forallb (get_truthy l) required_columns then 10 else 0.
Proof. unfold completeness_points, completeness_step. destruct (forallb _ _); reflexivity. Qed.

(** C5.  The seniority contribution of the rule-based score is 20 for
    every lead whose role mentions a Tier-A keyword, in any case of letters
    and whatever the other fields hold; it is 10 for every lead whose role
    mentions a Tier-B keyword and no Tier-A keyword; and it is never
    anything but 0, 10 or 20, so the two tiers do not add up. *)
Theorem seniority_tiers (l : lead) (offer : offer_dict) :
  rule_based_score l offer =
    Ok (seniority_points l + industry_points l offer + completeness_points l) /\
  (mentions tier_a (role_text l) -> seniority_points l = 20) /\
  (mentions tier_b (role_text l) -> ~ mentions tier_a (role_text l) ->
   seniority_points l = 10) /\
  (seniority_points l = 0 \/ seniority_points l = 10 \/ seniority_points l = 20).
Proof.
  split; [apply rule_based_score_sum|].
  rewrite seniority_points_cases, mentions_tier_a, mentions_tier_b.
  destruct (any_in tier_a _), (any_in tier_b _); intuition congruence.
Qed.

Lemma seniority_tiers_witness :
  seniority_points lead_acme = 20 /\ seniority_points lead_manager = 10.
Proof.
  split.
  - apply (seniority_tiers lead_acme None).
    exists "vp". split; [simpl; auto|].
    exists EmptyString, "VP", " Sales". split; reflexivity.
  - apply (seniority_tiers lead_manager None).
    + exists "manager". split; [simpl; auto|].
      exists "Account ", "Manager", EmptyString. split; reflexivity.
    + intros H. apply mentions_tier_a in H. vm_compute in H. discriminate H.
Defined.

Lemma get_truthy_filled (l : lead) (col : string) :
  get_truthy l col = true <-> field_filled l col.
Proof.
  unfold get_truthy, field_filled. destruct (l !! col) as [v|].
  - split; [intros H; exists v; auto | intros (w & [= <-] & H); exact H].
  - split; [discriminate | intros (w & [=] & _)].
Qed.

(** C6.  The completeness contribution is all or nothing over the six
    columns name, role, company, industry, location and linkedin_bio: it
    is 10 for every lead that has all six with a truthy value, and 0 for
    every lead where one of them is missing or has a falsy value. *)
Theorem completeness_all_or_nothing (l : lead) (offer : offer_dict) :
  rule_based_score l offer =
    Ok (seniority_points l + industry_points l offer + completeness_points l) /\
  ((forall col : string, In col required_columns -> field_filled l col) ->
   completeness_points l = 10) /\
  ((exists col : string, In col required_columns /\
      (l !! col = None \/ exists v : pyval, l !! col = Some v /\ truthy v = false)) ->
   completeness_points l = 0).
Proof.
  split; [apply rule_based_score_sum|].
  rewrite completeness_points_cases. split.
  - intros Hall.
    assert (forallb (get_truthy l) required_columns = true) as ->; [|reflexivity].
    apply forallb_forall. intros col Hin. apply get_truthy_filled, Hall, Hin.
  - intros (col & Hin & Hbad).
    destruct (forallb (get_truthy l) required_columns) eqn:E; [|reflexivity].
    rewrite forallb_forall in E. specialize (E col Hin).
    unfold get_truthy in E.
    destruct Hbad as [Hnone | (v & Hsome & Hfalsy)].
    + rewrite Hnone in E. discriminate E.
    + rewrite Hsome, Hfalsy in E. discriminate E.
Qed.

Lemma completeness_all_or_nothing_witness :
  completeness_points lead_acme = 10 /\ completeness_points lead_manager = 0.
Proof.
  split.
  - apply (completeness_all_or_nothing lead_acme None).
    intros col Hin. apply get_truthy_filled.
    simpl in Hin. intuition (subst; reflexivity).
  - apply (completeness_all_or_nothing lead_manager None).
    exists "location". split; [simpl; auto 10|]. left. reflexivity.
Defined.

Lemma get_default_insert_blank (l : lead) (col c : string) :
  l !! col = None ->
  get_default (<[col := PyStr EmptyString]> l) c (PyStr EmptyString) =
  get_default l c (PyStr EmptyString).
Proof.
  intros Hnone. unfold get_default. destruct (decide (col = c)) as [->|Hne].
  - now rewrite lookup_insert_eq, Hnone.
  - now rewrite lookup_insert_ne.
Qed.

Lemma get_truthy_insert_blank (l : lead) (col c : string) :
  l !! col = None ->
  get_truthy (<[col := PyStr EmptyString]> l) c = get_truthy l c.
Proof.
  intros Hnone. unfold get_truthy. destruct (decide (col = c)) as [->|Hne].
  - now rewrite lookup_insert_eq, Hnone.
  - now rewrite lookup_insert_ne.
Qed.

(** A missing column counts as an empty one. *)
Lemma rule_based_score_insert_blank (l : lead) (offer : offer_dict) (col : string) :
  l !! col = None ->
  rule_based_score (<[col := PyStr EmptyString]> l) offer = rule_based_score l offer.
Proof.
  intros Hnone.
  unfold rule_based_score, seniority_step, industry_step, completeness_step.
  rewrite !(get_default_insert_blank l col _ Hnone).
  unfold required_columns. cbn [forallb].
  rewrite !(get_truthy_insert_blank l col _ Hnone). reflexivity.
Qed.

(** C7.  The rule-based scorer is a function of the lead and the offer
    alone; for every lead and every offer it returns (it does not raise),
    and returns an integer between 0 and 50; a column the lead does not
    have is scored as the empty string would be. *)
Theorem rule_based_score_range (l : lead) (offer : offer_dict) :
  (exists n : Z, rule_based_score l offer = Ok n /\ 0 <= n <= 50) /\
  (forall col : string, l !! col = None ->
     rule_based_score (<[col := PyStr EmptyString]> l) offer = rule_based_score l offer).
Proof.
  split; [|intros col; apply rule_based_score_insert_blank].
  eexists. split; [apply rule_based_score_sum|].
  rewrite seniority_points_cases, completeness_points_cases.
  pose proof (industry_points_range l offer).
  destruct (any_in tier_a (lower (role_text l))), (any_in tier_b (lower (role_text l))),
    (forallb (get_truthy l) required_columns); lia.
Qed.

Lemma rule_based_score_range_witness :
  rule_based_score (<["location" := PyStr EmptyString]> lead_manager) (Some offer_x) =
  rule_based_score lead_manager (Some offer_x).
Proof.
  apply (rule_based_score_range lead_manager (Some offer_x)). reflexivity.
Defined.

(** C3.  The rule-based score reads entry 0 of the offer's
    ideal_use_cases and no later entry: two offers that agree on entry 0
    give every lead the same score, whatever else they hold. *)
Theorem rule_based_score_first_use_case (l : lead) (o1 o2 : Offer) :
  ideal_use_cases o1 !! 0%nat = ideal_use_cases o2 !! 0%nat ->
  rule_based_score l (Some o1) = rule_based_score l (Some o2).
Proof.
  intros H. unfold rule_based_score, industry_step.
  destruct (ideal_use_cases o1) as [|a r1], (ideal_use_cases o2) as [|b r2];
    cbn in H; try discriminate H; [reflexivity|].
  injection H as ->. reflexivity.
Qed.

Lemma rule_based_score_first_use_case_witness :
  rule_based_score lead_acme (Some offer_x) = rule_based_score lead_acme (Some offer_x2).
Proof.
  apply (rule_based_score_first_use_case lead_acme offer_x offer_x2). reflexivity.
Defined.

(** C10.  When the first entry of the offer's ideal_use_cases is the
    empty string, every lead gets the +20 industry bonus: the empty string
    occurs in every industry text, also in the empty one used for a lead
    with no industry column. *)
Theorem blank_use_case_scores_20 (l : lead) (o : Offer) (rest : list string) :
  ideal_use_cases o = EmptyString :: rest ->
  industry_points l (Some o) = 20 /\
  rule_based_score l (Some o) = Ok (seniority_points l + 20 + completeness_points l).
Proof.
  intros H.
  assert (industry_points l (Some o) = 20) as Hind.
  { unfold industry_points, industry_step. rewrite H. cbn.
    destruct (lower _); reflexivity. }
  split; [exact Hind|]. now rewrite rule_based_score_sum, Hind.
Qed.

Lemma blank_use_case_scores_20_witness :
  industry_points lead_empty (Some offer_blank) = 20 /\
  rule_based_score lead_empty (Some offer_blank) =
    Ok (seniority_points lead_empty + 20 + completeness_points lead_empty).
Proof.
  apply (blank_use_case_scores_20 lead_empty offer_blank ["logistics"]). reflexivity.
Defined.

(** ** The intent classifier *)

Section ClassifierProperties.

Variable json_loads : string -> pyresult json.
Variable json_dumps_offer : offer_dict -> string.
Variable json_dumps_lead : lead -> string.

#[local] Abbreviation try_block := (ask json_loads json_dumps_offer json_dumps_lead).
#[local] Abbreviation request_for := (build_request json_dumps_offer json_dumps_lead).
#[local] Abbreviation failure := (ai_failure json_loads json_dumps_offer json_dumps_lead).

(** What a successful [try] block went through. *)
Lemma ask_ok_inv (c : Client) (l : lead) (offer : offer_dict) (data : json) :
  try_block c l offer = Ok data ->
  exists (choices : list (option string)) (text : string),
    c (request_for l offer) = Ok choices /\
    response_text choices = Ok text /\
    json_loads (remove_markdown text) = Ok data /\
    is_dict data = true /\ key_in "intent" data = true /\ key_in "reasoning" data = true.
Proof.
  unfold ask, parse_response. intros H.
  destruct (c _) as [choices|e] eqn:Ec; cbn in H; [|discriminate H].
  destruct (response_text choices) as [text|e] eqn:Et; cbn in H; [|discriminate H].
  destruct (json_loads _) as [d|e] eqn:Ej; cbn in H; [|discriminate H].
  destruct (is_dict d) eqn:Ed, (key_in "intent" d) eqn:Ei, (key_in "reasoning" d) eqn:Er;
    cbn in H; try discriminate H.
  injection H as <-. exists choices, text. auto 10.
Qed.

(** The [try] block raises exactly on the failures listed. *)
Lemma ask_raises_iff (c : Client) (l : lead) (offer : offer_dict) :
  failure c l offer <-> exists e : exn, try_block c l offer = Raise e.
Proof.
  unfold ask, parse_response. split.
  - intros [e H | choices e H1 H2 | choices text e H1 H2 H3
           | choices text data H1 H2 H3 H4 | choices text data H1 H2 H3 H4].
    + rewrite H. eexists. reflexivity.
    + rewrite H1. cbn. rewrite H2. eexists. reflexivity.
    + rewrite H1. cbn. rewrite H2. cbn. rewrite H3. eexists. reflexivity.
    + rewrite H1. cbn. rewrite H2. cbn. rewrite H3. cbn. rewrite H4. eexists. reflexivity.
    + rewrite H1. cbn. rewrite H2. cbn. rewrite H3. cbn.
      destruct H4 as [-> | ->], (is_dict data); cbn;
        try rewrite orb_true_r; eexists; reflexivity.
  - intros [e H].
    destruct (c _) as [choices|e1] eqn:Ec; cbn in H; [|eapply service_raises; eauto].
    destruct (response_text choices) as [text|e2] eqn:Et; cbn in H;
      [|eapply no_text; eauto].
    destruct (json_loads _) as [d|e3] eqn:Ej; cbn in H; [|eapply invalid_json; eauto].
    destruct (is_dict d) eqn:Ed; [|eapply not_a_mapping; eauto].
    destruct (key_in "intent" d) eqn:Ei; [|eapply key_missing; eauto].
    destruct (key_in "reasoning" d) eqn:Er; [|eapply key_missing; eauto].
    cbn in H. discriminate H.
Qed.

(** C8.  With no credential in the environment (or an empty one) no client
    is built, and the classifier then returns the fixed pair of intent
    Medium and the reasoning "AI not configured; using default reasoning."
    for every lead and offer, without sending a request to the service. *)
Theorem not_configured_fallback (OpenAI : string -> Client) (l : lead) (offer : offer_dict) :
  init_client OpenAI None = None /\
  init_client OpenAI (Some EmptyString) = None /\
  ai_score_and_reason json_loads json_dumps_offer json_dumps_lead None l offer =
    ([], Ok (JObject [("intent", JString "Medium");
                      ("reasoning", JString "AI not configured; using default reasoning.")])).
Proof. repeat split. Qed.

(** C9.  With a client configured, whenever the call fails (the service
    raises, the response carries no text, the text with its code fence
    removed is not valid JSON, the parsed value is not a mapping, or one of
    the keys intent and reasoning is missing) the classifier does not raise
    and returns the fixed pair of intent Medium and the reasoning
    "Default reasoning due to AI error.". *)
Theorem ai_failure_fallback (c : Client) (l : lead) (offer : offer_dict) :
  ai_failure json_loads json_dumps_offer json_dumps_lead c l offer ->
  ai_score_and_reason json_loads json_dumps_offer json_dumps_lead (Some c) l offer =
    ([build_request json_dumps_offer json_dumps_lead l offer],
     Ok (JObject [("intent", JString "Medium");
                  ("reasoning", JString "Default reasoning due to AI error.")])).
Proof.
  intros H. apply ask_raises_iff in H as [e H].
  unfold ai_score_and_reason. rewrite H. reflexivity.
Qed.

(** C2, as the code has it.  For every lead, offer and behaviour of the
    service the classifier returns, and what it returns is a mapping with
    the keys intent and reasoning: one of the two fixed fallbacks, or the
    object parsed from the text of the service, handed back as it is. *)
Theorem classifier_returns_mapping (client : option Client) (l : lead) (offer : offer_dict) :
  exists data : json,
    snd (ai_score_and_reason json_loads json_dumps_offer json_dumps_lead client l offer)
      = Ok data /\
    is_dict data = true /\ key_in "intent" data = true /\ key_in "reasoning" data = true /\
    (data = fallback_not_configured \/
     data = fallback_ai_error \/
     exists (c : Client) (choices : list (option string)) (text : string),
       client = Some c /\ c (request_for l offer) = Ok choices /\
       response_text choices = Ok text /\ json_loads (remove_markdown text) = Ok data).
Proof.
  destruct client as [c|]; cbn.
  - destruct (try_block c l offer) as [data|e] eqn:E; cbn.
    + exists data. destruct (ask_ok_inv _ _ _ _ E) as (choices & text & H1 & H2 & H3 & H4 & H5 & H6).
      repeat split; auto. right; right. exists c, choices, text. auto.
    + exists fallback_ai_error. repeat split; auto.
  - exists fallback_not_configured. repeat split; auto.
Qed.

End ClassifierProperties.

Lemma fallbacks_labelled : labelled fallback_not_configured /\ labelled fallback_ai_error.
Proof.
  split; (split; [exists "Medium"; split; [simpl; auto | reflexivity] | eexists; reflexivity]).
Qed.

(** The service answers [{"intent": "Maybe", "reasoning": 5}]: the
    classifier returns that object, whose intent is none of the three
    labels and whose reasoning is a number. *)
Lemma classifier_unlabelled_counterexample :
  snd (ai_score_and_reason loads dumps_elided dumps_elided
         (Some (client_says reply_maybe)) lead_acme (Some offer_x))
  = Ok (JObject [("intent", JString "Maybe"); ("reasoning", JNumber "5")]) /\
  ~ labelled (JObject [("intent", JString "Maybe"); ("reasoning", JNumber "5")]).
Proof.
  split; [vm_compute; reflexivity|].
  intros [_ [text H]]. cbn in H. discriminate H.
Qed.

Lemma ai_failure_fallback_witness :
  let classify := ai_score_and_reason loads dumps_elided dumps_elided in
  snd (classify (Some client_down) lead_acme (Some offer_x)) = Ok fallback_ai_error /\
  snd (classify (Some (client_says reply_prose)) lead_acme (Some offer_x)) = Ok fallback_ai_error /\
  snd (classify (Some (client_says reply_array)) lead_acme (Some offer_x)) = Ok fallback_ai_error /\
  snd (classify (Some (client_says reply_no_reasoning)) lead_acme (Some offer_x))
    = Ok fallback_ai_error.
Proof.
  cbv zeta. split; [|split; [|split]].
  - rewrite (ai_failure_fallback loads dumps_elided dumps_elided client_down lead_acme (Some offer_x));
      [reflexivity|].
    apply service_raises with (e := APIError). reflexivity.
  - rewrite (ai_failure_fallback loads dumps_elided dumps_elided (client_says reply_prose)
               lead_acme (Some offer_x)); [reflexivity|].
    apply invalid_json with (choices := [Some reply_prose]) (text := reply_prose)
                            (e := JSONDecodeError); reflexivity.
  - rewrite (ai_failure_fallback loads dumps_elided dumps_elided (client_says reply_array)
               lead_acme (Some offer_x)); [reflexivity|].
    apply not_a_mapping with (choices := [Some reply_array]) (text := reply_array)
                             (data := JArray [JString "High"; JString "fits"]); reflexivity.
  - rewrite (ai_failure_fallback loads dumps_elided dumps_elided (client_says reply_no_reasoning)
               lead_acme (Some offer_x)); [reflexivity|].
    apply key_missing with (choices := [Some reply_no_reasoning]) (text := reply_no_reasoning)
                           (data := JObject [("intent", JString "High")]);
      [reflexivity | reflexivity | reflexivity | right; reflexivity].
Defined.

(** A fenced answer is unwrapped and returned. *)
Example classify_fenced :
  snd (ai_score_and_reason loads dumps_elided dumps_elided
         (Some (client_says reply_fenced)) lead_acme (Some offer_x))
  = Ok (JObject [("intent", JString "High"); ("reasoning", JString "Senior buyer.")]).
Proof. vm_compute. reflexivity. Qed.

(** ** The score combiner *)

(** On a string the combiner adds the points of the label, 30 for a label
    it does not know; a number, a boolean or null counts as unknown. *)
Lemma combine_label (rule_score : Z) (label : string) :
  combine rule_score (JString label) =
  Ok (rule_score +
      (if String.eqb label "High" then 50
       else if String.eqb label "Medium" then 30
       else if String.eqb label "Low" then 10
       else 30)).
Proof.
  unfold combine, points_get, intent_points. cbn -[String.eqb Z.add].
  rewrite (String.eqb_sym "High"), (String.eqb_sym "Medium"), (String.eqb_sym "Low").
  destruct (String.eqb label "High"); [reflexivity|].
  destruct (String.eqb label "Medium"); [reflexivity|].
  destruct (String.eqb label "Low"); reflexivity.
Qed.

Lemma combine_scalar (rule_score : Z) (intent : json) :
  intent = JNull \/ (exists b : bool, intent = JBool b) \/
  (exists literal : string, intent = JNumber literal) ->
  combine rule_score intent = Ok (rule_score + 30).
Proof. intros [-> | [[b ->] | [literal ->]]]; reflexivity. Qed.

Example combine_examples :
  combine 20 (JString "High") = Ok 70 /\
  combine 0 (JString "Low") = Ok 10 /\
  combine 10 (JString "Unknown") = Ok 40 /\
  combine 50 (JString "High") = Ok 100 /\
  combine 1000 (JString "Medium") = Ok 1030.
Proof. repeat split. Qed.

Lemma combine_unhashable (rule_score : Z) (intent : json) :
  (exists items : list json, intent = JArray items) \/
  (exists members : list (string * json), intent = JObject members) ->
  combine rule_score intent = Raise TypeError.
Proof. intros [[items ->] | [members ->]]; reflexivity. Qed.

(** C4.  An intent that is a JSON array is an intent other than High,
    Medium and Low, and the combiner does not map it to 30: the lookup
    raises TypeError.  With the service answering
    [{"intent": ["High"], "reasoning": "fits"}] the exception leaves the
    classifier's caller uncaught, the pass stops at the first lead and the
    results of the session are the empty list. *)
Theorem combine_list_intent_raises :
  combine 10 (JArray [JString "High"]) = Raise TypeError /\
  snd (ai_score_and_reason loads dumps_elided dumps_elided
         (Some (client_says reply_list_intent)) lead_acme (Some offer_x))
    = Ok (JObject [("intent", JArray [JString "High"]); ("reasoning", JString "fits")]) /\
  score_leads loads dumps_elided dumps_elided
    (Some (client_says reply_list_intent)) session_ready
    = (set_results session_ready [], Uncaught TypeError).
Proof. split; [reflexivity|]. split; vm_compute; reflexivity. Qed.

(** ** The [/score] handler *)

Section SessionProperties.

Variable json_loads : string -> pyresult json.
Variable json_dumps_offer : offer_dict -> string.
Variable json_dumps_lead : lead -> string.

(** C1, as the code has it.  Scoring needs an offer and an uploaded lead
    batch: in every session where the offer slot is empty or no batch has
    been uploaded, the handler fails with the precondition error (status
    400) and leaves the session, its results included, as it was.  A batch
    that was uploaded with no rows passes the check: the pass succeeds and
    replaces the results by the empty list. *)
Theorem score_leads_precondition (client : option Client) (s : Session) :
  (OFFER_DATA s = None \/ LEADS_DF s = None ->
   score_leads json_loads json_dumps_offer json_dumps_lead client s
   = (s, HTTPException 400 "Please upload both offer and leads first.")) /\
  (forall o : Offer, OFFER_DATA s = Some o -> LEADS_DF s = Some [] ->
   score_leads json_loads json_dumps_offer json_dumps_lead client s
   = (set_results s [], Returned [])).
Proof.
  unfold score_leads. split.
  - intros [H | H]; rewrite H; [|reflexivity].
    destruct (LEADS_DF s); reflexivity.
  - intros o Ho Hl. rewrite Ho, Hl. reflexivity.
Qed.

End SessionProperties.

(** An offer and an uploaded batch with no rows: the handler does not fail,
    and the results of the earlier pass are gone. *)
Lemma score_leads_empty_batch_counterexample :
  LEADS_DF session_empty_batch = Some [] /\
  RESULTS session_empty_batch = [scored_before] /\
  score_leads loads dumps_elided dumps_elided None session_empty_batch
    = ({| OFFER_DATA := Some offer_x; LEADS_DF := Some []; RESULTS := [] |}, Returned []) /\
  (forall (status_code : Z) (detail : string),
     score_leads loads dumps_elided dumps_elided None session_empty_batch
     <> (session_empty_batch, HTTPException status_code detail)).
Proof. repeat split. intros status_code detail H. discriminate H. Qed.

Lemma score_leads_precondition_witness :
  let run := score_leads loads dumps_elided dumps_elided None in
  run session_no_offer
    = (session_no_offer, HTTPException 400 "Please upload both offer and leads first.") /\
  run session_no_leads
    = (session_no_leads, HTTPException 400 "Please upload both offer and leads first.") /\
  run session_empty_batch = (set_results session_empty_batch [], Returned []).
Proof.
  cbv zeta. split; [|split].
  - apply (score_leads_precondition loads dumps_elided dumps_elided None session_no_offer).
    left. reflexivity.
  - apply (score_leads_precondition loads dumps_elided dumps_elided None session_no_leads).
    right. reflexivity.
  - apply (proj2 (score_leads_precondition loads dumps_elided dumps_elided None
                    session_empty_batch) offer_x); reflexivity.
Defined.

(** The end-to-end scenario of the specification: rule score 40, Medium
    from the fallback, final score 70; and a pass replaces earlier results. *)
Example score_leads_acme :
  score_leads loads dumps_elided dumps_elided None
    {| OFFER_DATA := Some offer_x; LEADS_DF := Some [lead_acme]; RESULTS := [scored_before] |}
  = (let scored :=
       {| sl_name := PyStr "A"; sl_role := PyStr "VP Sales"; sl_company := PyStr "Acme";
          sl_intent := JString "Medium"; sl_score := 70;
          sl_reasoning := JString "AI not configured; using default reasoning." |} in
     ({| OFFER_DATA := Some offer_x; LEADS_DF := Some [lead_acme]; RESULTS := [scored] |},
      Returned [scored])).
Proof. vm_compute. reflexivity. Qed.

(** * Further properties of the code *)

(** ** The rule-based scorer: the industry block *)

Lemma isspace_lower_char (c : ascii) : py_isspace (lower_char c) = py_isspace c.
Proof. destruct c as [[] [] [] [] [] [] [] []]; reflexivity. Qed.






Lemma industry_points_cases (l : lead) (o : Offer) (first : string) (rest : list string) :
  ideal_use_cases o = first :: rest ->
  industry_points l (Some o) =
  if str_in (lower first) (lower (industry_text l)) then 20
  else if any_in (split (lower first)) (lower (industry_text l)) then 10
  else 0.
Proof.
  intros H. unfold industry_points, industry_step, industry_text. rewrite H. cbn.
  destruct (str_in _ _); [reflexivity|]. destruct (any_in _ _); reflexivity.
Qed.



Lemma all_chars_lower (s : string) : no_space (lower s) = no_space s.
Proof.
  unfold no_space. induction s as [|c s IH]; simpl; [reflexivity|].
  now rewrite isspace_lower_char, IH.
Qed.

Lemma split_go_no_space (s : string) (cur : list ascii) :
  no_space s = true ->
  split_go s cur = flush (rev (list_ascii_of_string s) ++ cur) [].
Proof.
  revert cur. unfold no_space. induction s as [|c s IH]; intros cur H; simpl in *.
  - reflexivity.
  - apply andb_true_iff in H as [Hc Hs]. apply negb_true_iff in Hc. rewrite Hc.
    rewrite (IH (c :: cur) Hs), <- app_assoc. reflexivity.
Qed.

(** A text without whitespace is its own single word. *)
Lemma split_one_word (c : ascii) (s : string) :
  no_space (String c s) = true -> split (String c s) = [String c s].
Proof.
  intros H. unfold split. rewrite (split_go_no_space _ [] H), app_nil_r.
  unfold flush.
  destruct (rev (list_ascii_of_string (String c s))) as [|d r] eqn:E.
  - apply (f_equal (@rev ascii)) in E. rewrite rev_involutive in E. discriminate E.
  - rewrite <- E, rev_involutive, string_of_list_ascii_of_string. reflexivity.
Qed.

(** When the first use case is a single word (no whitespace in it), the
    partial bonus is out of reach: the industry contribution is 20 or 0,
    never 10. *)
Theorem one_word_use_case_no_partial (l : lead) (o : Offer) (first : string)
    (rest : list string) :
  ideal_use_cases o = first :: rest ->
  no_space first = true ->
  industry_points l (Some o) = 20 \/ industry_points l (Some o) = 0.
Proof.
  intros H Hns. rewrite (industry_points_cases l o first rest H).
  rewrite <- all_chars_lower in Hns.
  destruct (lower first) as [|c icp] eqn:E.
  - left. destruct (lower (industry_text l)); reflexivity.
  - rewrite (split_one_word c icp Hns). unfold any_in. cbn [existsb].
    rewrite orb_false_r. destruct (str_in _ _); auto.
Qed.

Lemma one_word_use_case_no_partial_witness :
  industry_points lead_acme (Some offer_one_word) = 20 \/
  industry_points lead_acme (Some offer_one_word) = 0.
Proof.
  apply (one_word_use_case_no_partial lead_acme offer_one_word "Fintech" []); reflexivity.
Defined.

(** With no offer stored, or an offer whose list of use cases is empty,
    the industry block adds nothing and does not index the list: the score
    is the seniority and completeness contributions, at most 30. *)
Theorem no_use_case_score (l : lead) (offer : offer_dict) :
  offer = None \/ (exists o : Offer, offer = Some o /\ ideal_use_cases o = []) ->
  rule_based_score l offer = Ok (seniority_points l + completeness_points l) /\
  0 <= seniority_points l + completeness_points l <= 30.
Proof.
  intros H.
  assert (industry_points l offer = 0) as Hind.
  { unfold industry_points, industry_step.
    destruct H as [-> | (o & -> & ->)]; reflexivity. }
  split.
  - rewrite rule_based_score_sum, Hind. f_equal. lia.
  - rewrite seniority_points_cases, completeness_points_cases.
    destruct (any_in tier_a (lower (role_text l))), (any_in tier_b (lower (role_text l))),
      (forallb (get_truthy l) required_columns); lia.
Qed.

Lemma no_use_case_score_witness :
  rule_based_score lead_acme (Some offer_no_use_case) = Ok 30 /\
  rule_based_score lead_acme None = Ok 30.
Proof.
  split.
  - apply (no_use_case_score lead_acme (Some offer_no_use_case)).
    right. exists offer_no_use_case. split; reflexivity.
  - apply (no_use_case_score lead_acme None). left. reflexivity.
Defined.

(** ** The rule-based scorer: what it reads of its inputs *)

(** The score reads the role and the industry only up to letter case, the
    six columns only for being truthy, and the offer only for the lower
    case of its first use case: inputs that agree on these get the same
    score. *)
Theorem rule_based_score_reads (l1 l2 : lead) (o1 o2 : Offer) :
  lower (role_text l1) = lower (role_text l2) ->
  lower (industry_text l1) = lower (industry_text l2) ->
  (forall col : string, In col required_columns -> get_truthy l1 col = get_truthy l2 col) ->
  lower <$> (ideal_use_cases o1 !! 0%nat) = lower <$> (ideal_use_cases o2 !! 0%nat) ->
  rule_based_score l1 (Some o1) = rule_based_score l2 (Some o2).
Proof.
  intros Hrole Hind Hcols Hoffer.
  assert (forallb (get_truthy l1) required_columns = forallb (get_truthy l2) required_columns)
    as Hall.
  { revert Hcols. generalize required_columns. intros cols.
    induction cols as [|col cols IH]; intros Hcols; simpl; [reflexivity|].
    rewrite (Hcols col), IH; [reflexivity | | left; reflexivity].
    intros c Hc. apply Hcols. right. exact Hc. }
  unfold rule_based_score, seniority_step, industry_step, completeness_step.
  unfold role_text in Hrole. unfold industry_text in Hind.
  rewrite Hrole, Hind, Hall.
  destruct (ideal_use_cases o1) as [|a r1], (ideal_use_cases o2) as [|b r2];
    cbn in Hoffer; try discriminate Hoffer; [reflexivity|].
  injection Hoffer as Hab. cbn. rewrite Hab. reflexivity.
Qed.

Lemma rule_based_score_reads_witness :
  rule_based_score lead_acme (Some offer_x) =
  rule_based_score lead_acme_shouting (Some offer_x_shouting).
Proof.
  apply (rule_based_score_reads lead_acme lead_acme_shouting offer_x offer_x_shouting);
    try reflexivity.
  intros col Hin. simpl in Hin. intuition (subst; reflexivity).
Defined.

(** ** The intent classifier: answers that are used *)

Lemma append_cons (x : ascii) (a b : string) : String x a +:+ b = String x (a +:+ b).
Proof. reflexivity. Qed.

Lemma append_nil_r (a : string) : a +:+ EmptyString = a.
Proof. induction a as [|x a IH]; [reflexivity | now rewrite append_cons, IH]. Qed.

Lemma append_assoc (a b c : string) : (a +:+ b) +:+ c = a +:+ (b +:+ c).
Proof. induction a as [|x a IH]; [reflexivity | now rewrite !append_cons, IH]. Qed.

Lemma all_chars_app (p : ascii -> bool) (a b : string) :
  all_chars p (a +:+ b) = all_chars p a && all_chars p b.
Proof.
  induction a as [|x a IH]; [reflexivity|].
  rewrite append_cons. simpl. now rewrite IH, andb_assoc.
Qed.

Lemma all_chars_impl (p r : ascii -> bool) (s : string) :
  (forall c : ascii, p c = true -> r c = true) ->
  all_chars p s = true -> all_chars r s = true.
Proof.
  intros Hpr. induction s as [|c s IH]; simpl; [reflexivity|].
  rewrite !andb_true_iff. intros [Hc Hs]. auto.
Qed.

Lemma space_not_backtick (c : ascii) :
  py_isspace c = true -> negb (Ascii.eqb c backtick) = true.
Proof.
  intros H. destruct (Ascii.eqb_spec c backtick) as [->|]; [discriminate H | reflexivity].
Qed.

Lemma all_space_no_backtick (w : string) : all_space w = true -> no_backtick w = true.
Proof. apply all_chars_impl, space_not_backtick. Qed.

(** Text without a backtick passes through the removal of a marker that
    starts with one. *)
Lemma remove_go_keep (old' a b : string) :
  no_backtick a = true ->
  remove_go (String backtick old') (a +:+ b) 0 =
  a +:+ remove_go (String backtick old') b 0.
Proof.
  unfold no_backtick. induction a as [|c a IH]; intros H; [reflexivity|].
  simpl in H. apply andb_true_iff in H as [Hc Ha].
  apply negb_true_iff in Hc. rewrite Ascii.eqb_sym in Hc.
  rewrite append_cons. cbn [remove_go starts_with]. rewrite Hc. cbn [andb].
  now rewrite (IH Ha).
Qed.

Lemma remove_all_keep (old' a : string) :
  no_backtick a = true -> remove_all (String backtick old') a = a.
Proof.
  intros H. unfold remove_all.
  rewrite <- (append_nil_r a) at 1.
  rewrite (remove_go_keep old' a EmptyString H). apply append_nil_r.
Qed.

Lemma lstrip_all_space (w s : string) : all_space w = true -> lstrip (w +:+ s) = lstrip s.
Proof.
  unfold all_space. induction w as [|c w IH]; intros H; [reflexivity|].
  simpl in H. apply andb_true_iff in H as [Hc Hw].
  rewrite append_cons. simpl. rewrite Hc. auto.
Qed.

Lemma rstrip_all_space (w : string) : all_space w = true -> rstrip w = EmptyString.
Proof.
  unfold all_space. induction w as [|c w IH]; intros H; [reflexivity|].
  simpl in H. apply andb_true_iff in H as [Hc Hw]. simpl. now rewrite (IH Hw), Hc.
Qed.

Lemma rstrip_app_space (s w : string) : all_space w = true -> rstrip (s +:+ w) = rstrip s.
Proof.
  intros H. induction s as [|c s IH].
  - now apply rstrip_all_space.
  - rewrite append_cons. simpl. now rewrite IH.
Qed.

Lemma rstrip_app_char (s : string) (c : ascii) :
  py_isspace c = false ->
  rstrip (s +:+ String c EmptyString) = s +:+ String c EmptyString.
Proof.
  intros H. induction s as [|a s IH].
  - simpl. now rewrite H.
  - rewrite append_cons. cbn [rstrip]. rewrite IH. destruct s; reflexivity.
Qed.

Lemma strip_app_space (s w : string) : all_space w = true -> strip (s +:+ w) = strip s.
Proof.
  intros H. unfold strip. induction s as [|c s IH].
  - change (EmptyString +:+ w) with w. rewrite <- (append_nil_r w) at 1.
    now rewrite (lstrip_all_space w EmptyString H).
  - rewrite append_cons. cbn [lstrip]. destruct (py_isspace c); [exact IH|].
    rewrite <- append_cons. apply (rstrip_app_space (String c s) w H).
Qed.

Lemma strip_padded (w1 body w2 : string) :
  all_space w1 = true -> all_space w2 = true ->
  strip (w1 +:+ body +:+ w2) = strip body.
Proof.
  intros H1 H2. unfold strip. rewrite (lstrip_all_space w1 _ H1).
  apply (strip_app_space body w2 H2).
Qed.

Lemma no_backtick_lstrip (s : string) : no_backtick s = true -> no_backtick (lstrip s) = true.
Proof.
  unfold no_backtick. induction s as [|c s IH]; intros H; [reflexivity|].
  simpl. destruct (py_isspace c); [|exact H].
  simpl in H. apply andb_true_iff in H as [_ Hs]. auto.
Qed.

Lemma no_backtick_rstrip (s : string) : no_backtick s = true -> no_backtick (rstrip s) = true.
Proof.
  unfold no_backtick. induction s as [|c s IH]; intros H; [reflexivity|].
  simpl in H. apply andb_true_iff in H as [Hc Hs]. specialize (IH Hs). simpl.
  destruct (rstrip s) as [|d t].
  - destruct (py_isspace c); [reflexivity|]. simpl. now rewrite Hc.
  - cbn [all_chars]. cbn [all_chars] in IH. now rewrite Hc, IH.
Qed.

Lemma no_backtick_strip (s : string) : no_backtick s = true -> no_backtick (strip s) = true.
Proof. intros H. apply no_backtick_rstrip, no_backtick_lstrip, H. Qed.

Lemma no_backtick_not_fenced (s : string) :
  no_backtick s = true -> starts_with "```json" s = false.
Proof.
  destruct s as [|c s]; [reflexivity|]. unfold no_backtick. cbn [all_chars starts_with].
  intros H. apply andb_true_iff in H as [Hc _]. apply negb_true_iff in Hc.
  rewrite Ascii.eqb_sym in Hc. unfold backtick in Hc. now rewrite Hc.
Qed.

(** Stripping leaves a fenced text as it is. *)
Lemma strip_fenced (w1 body w2 : string) : strip (fenced w1 body w2) = fenced w1 body w2.
Proof.
  unfold strip, fenced.
  change ("```json" +:+ w1 +:+ body +:+ w2 +:+ "```")
    with (String "`" ("``json" +:+ (w1 +:+ (body +:+ (w2 +:+ ("``" +:+ "`")))))).
  cbn [lstrip]. change (py_isspace "`") with false. cbn iota.
  rewrite <- append_cons, <- !append_assoc. apply rstrip_app_char. reflexivity.
Qed.

(** Removing the markdown of a fenced text leaves the text, stripped. *)
Lemma remove_markdown_fenced (w1 body w2 : string) :
  all_space w1 = true -> all_space w2 = true -> no_backtick body = true ->
  remove_markdown (fenced w1 body w2) = strip body.
Proof.
  intros H1 H2 Hb. unfold remove_markdown.
  assert (no_backtick (w1 +:+ body +:+ w2) = true) as Hin.
  { unfold no_backtick. rewrite !all_chars_app.
    fold (no_backtick w1) (no_backtick body) (no_backtick w2).
    now rewrite Hb, !all_space_no_backtick. }
  assert (remove_all "```json" (fenced w1 body w2) = (w1 +:+ body +:+ w2) +:+ "```") as ->.
  { unfold remove_all, fenced.
    change (remove_go "```json" ("```json" +:+ w1 +:+ body +:+ w2 +:+ "```") 0)
      with (remove_go "```json" (w1 +:+ body +:+ w2 +:+ "```") 0).
    rewrite <- !append_assoc, !append_assoc.
    assert (w1 +:+ body +:+ w2 +:+ "```" = (w1 +:+ body +:+ w2) +:+ "```") as ->
      by now rewrite !append_assoc.
    change "```json" with (String backtick "``json").
    now rewrite (remove_go_keep "``json" _ _ Hin). }
  assert (remove_all "```" ((w1 +:+ body +:+ w2) +:+ "```") = w1 +:+ body +:+ w2) as ->.
  { unfold remove_all. change "```" with (String backtick "``") at 1.
    rewrite (remove_go_keep "``" _ _ Hin). cbn.
    apply append_nil_r. }
  change (starts_with "```json" (fenced w1 body w2)) with true. cbn iota.
  apply strip_padded; assumption.
Qed.

Section ClassifierAnswers.

Variable json_loads : string -> pyresult json.
Variable json_dumps_offer : offer_dict -> string.
Variable json_dumps_lead : lead -> string.

(** When the text of the first choice, stripped and freed of its markdown,
    parses to a mapping with the keys intent and reasoning, the classifier
    returns that mapping, with every key and value it has; the choices
    after the first are not looked at. *)
Theorem classifier_returns_parsed (c : Client) (l : lead) (offer : offer_dict)
    (text : string) (others : list (option string)) (data : json) :
  c (build_request json_dumps_offer json_dumps_lead l offer) = Ok (Some text :: others) ->
  json_loads (remove_markdown (strip text)) = Ok data ->
  is_dict data = true -> key_in "intent" data = true -> key_in "reasoning" data = true ->
  ai_score_and_reason json_loads json_dumps_offer json_dumps_lead (Some c) l offer =
    ([build_request json_dumps_offer json_dumps_lead l offer], Ok data).
Proof.
  intros Hc Hj Hd Hi Hr. unfold ai_score_and_reason, ask, parse_response.
  rewrite Hc. cbn. rewrite Hj. cbn. rewrite Hd, Hi, Hr. reflexivity.
Qed.

(** A code fence around the answer changes nothing: for a text without
    backticks, the classifier returns the same for the text inside
    [```json ... ```] (whitespace between markers and text) as for the bare
    text. *)
Theorem classifier_unwraps_fence (c1 c2 : Client) (l : lead) (offer : offer_dict)
    (w1 body w2 : string) (others1 others2 : list (option string)) :
  all_space w1 = true -> all_space w2 = true -> no_backtick body = true ->
  c1 (build_request json_dumps_offer json_dumps_lead l offer)
    = Ok (Some (fenced w1 body w2) :: others1) ->
  c2 (build_request json_dumps_offer json_dumps_lead l offer) = Ok (Some body :: others2) ->
  ai_score_and_reason json_loads json_dumps_offer json_dumps_lead (Some c1) l offer =
  ai_score_and_reason json_loads json_dumps_offer json_dumps_lead (Some c2) l offer.
Proof.
  intros H1 H2 Hb Hc1 Hc2. unfold ai_score_and_reason, ask.
  rewrite Hc1, Hc2. cbn.
  rewrite strip_fenced, (remove_markdown_fenced w1 body w2 H1 H2 Hb).
  unfold remove_markdown.
  now rewrite (no_backtick_not_fenced _ (no_backtick_strip _ Hb)).
Qed.

End ClassifierAnswers.

Lemma classifier_returns_parsed_witness :
  ai_score_and_reason loads dumps_elided dumps_elided
    (Some (client_says reply_fenced)) lead_acme (Some offer_x)
  = ([build_request dumps_elided dumps_elided lead_acme (Some offer_x)],
     Ok (JObject [("intent", JString "High"); ("reasoning", JString "Senior buyer.")])).
Proof.
  apply (classifier_returns_parsed loads dumps_elided dumps_elided
           (client_says reply_fenced) lead_acme (Some offer_x) reply_fenced []);
    reflexivity.
Defined.

Lemma classifier_unwraps_fence_witness :
  ai_score_and_reason loads dumps_elided dumps_elided
    (Some (client_says (fenced newline reply_maybe newline))) lead_acme (Some offer_x) =
  ai_score_and_reason loads dumps_elided dumps_elided
    (Some (client_says reply_maybe)) lead_acme (Some offer_x).
Proof.
  apply (classifier_unwraps_fence loads dumps_elided dumps_elided
           (client_says (fenced newline reply_maybe newline)) (client_says reply_maybe)
           lead_acme (Some offer_x) newline reply_maybe newline [] []);
    reflexivity.
Defined.

(** ** The scoring pass *)

Lemma key_in_assoc (key : string) (data : json) :
  key_in key data = true -> exists v : json, assoc key (dict_items data) = Some v.
Proof.
  unfold key_in. generalize (dict_items data). intros items.
  induction items as [|[k v] items IH]; simpl; [discriminate|].
  destruct (String.eqb k key); [intros _; exists v; reflexivity | exact IH].
Qed.

Lemma points_of_hashable (intent : json) :
  hashable intent = true ->
  points_get intent 30 = Ok (points_of intent) /\ In (points_of intent) [10; 30; 50].
Proof.
  unfold points_of. destruct intent as [| b | literal | label | items | members];
    try discriminate; intros _; try (split; [reflexivity | simpl; auto]).
  unfold points_get, intent_points. cbn -[String.eqb].
  destruct (String.eqb "High" label); [split; [reflexivity | simpl; auto]|].
  destruct (String.eqb "Medium" label); [split; [reflexivity | simpl; auto]|].
  destruct (String.eqb "Low" label); split; try reflexivity; simpl; auto.
Qed.

Lemma points_get_unhashable (intent : json) :
  hashable intent = false -> points_get intent 30 = Raise TypeError.
Proof. destruct intent; try discriminate; reflexivity. Qed.

Section PassProperties.

Variable json_loads : string -> pyresult json.
Variable json_dumps_offer : offer_dict -> string.
Variable json_dumps_lead : lead -> string.

#[local] Abbreviation classify_with :=
  (ai_score_and_reason json_loads json_dumps_offer json_dumps_lead).
#[local] Abbreviation score_row := (score_one json_loads json_dumps_offer json_dumps_lead).
#[local] Abbreviation loop := (score_loop json_loads json_dumps_offer json_dumps_lead).
#[local] Abbreviation run := (score_leads json_loads json_dumps_offer json_dumps_lead).
#[local] Abbreviation intent_at := (intent_of json_loads json_dumps_offer json_dumps_lead).
#[local] Abbreviation record_of := (scored_with json_loads json_dumps_offer json_dumps_lead).
#[local] Abbreviation prefix_of :=
  (scorable_prefix json_loads json_dumps_offer json_dumps_lead).

(** The classifier hands the handler a dict that has both keys. *)
Lemma classify_dict (client : option Client) (l : lead) (offer : offer_dict) :
  exists (members : list (string * json)) (intent reasoning : json),
    snd (classify_with client l offer) = Ok (JObject members) /\
    assoc "intent" members = Some intent /\ assoc "reasoning" members = Some reasoning.
Proof.
  assert (exists data : json, snd (classify_with client l offer) = Ok data /\
            is_dict data = true /\ key_in "intent" data = true /\
            key_in "reasoning" data = true) as (data & H & Hd & Hi & Hr).
  { destruct client as [c|]; cbn.
    - destruct (ask json_loads json_dumps_offer json_dumps_lead c l offer) as [data|e] eqn:E;
        cbn.
      + exists data. destruct (ask_ok_inv _ _ _ _ _ _ _ E) as (_ & _ & _ & _ & _ & ? & ? & ?).
        auto.
      + exists fallback_ai_error. auto.
    - exists fallback_not_configured. auto. }
  destruct data as [| | | | |members]; try discriminate Hd.
  destruct (key_in_assoc _ _ Hi) as [intent Hintent].
  destruct (key_in_assoc _ _ Hr) as [reasoning Hreasoning].
  exists members, intent, reasoning. auto.
Qed.

(** One turn of the loop: the record of the lead, or TypeError when the
    intent has no hash. *)
Lemma score_one_eq (client : option Client) (offer : offer_dict) (l : lead) :
  score_row client offer l =
  if hashable (intent_at client offer l) then Ok (record_of client offer l)
  else Raise TypeError.
Proof.
  destruct (classify_dict client l offer) as (members & intent & reasoning & H & Hi & Hr).
  unfold score_one, scored_with, intent_of, reasoning_of, answer_of.
  rewrite rule_based_score_sum, H. cbn. rewrite Hi, Hr. cbn. unfold combine.
  destruct (hashable intent) eqn:Eh.
  - destruct (points_of_hashable intent Eh) as [-> _]. reflexivity.
  - rewrite (points_get_unhashable intent Eh). reflexivity.
Qed.

Lemma score_loop_eq (client : option Client) (offer : offer_dict) (rows : list lead)
    (acc : list ScoredLead) :
  loop client offer rows acc =
  ((acc ++ map (record_of client offer) (prefix_of client offer rows))%list,
   if forallb (fun l => hashable (intent_at client offer l)) rows
   then Ok tt else Raise TypeError).
Proof.
  revert acc. induction rows as [|l rows IH]; intros acc; simpl.
  - now rewrite app_nil_r.
  - rewrite score_one_eq. destruct (hashable (intent_at client offer l)); simpl.
    + rewrite IH, <- app_assoc. reflexivity.
    + now rewrite app_nil_r.
Qed.

(** What the handler does once the check has passed. *)
Lemma score_leads_eq (client : option Client) (s : Session) (o : Offer) (rows : list lead) :
  OFFER_DATA s = Some o -> LEADS_DF s = Some rows ->
  run client s =
  (set_results s (map (record_of client (Some o)) (prefix_of client (Some o) rows)),
   if forallb (fun l => hashable (intent_at client (Some o) l)) rows
   then Returned (map (record_of client (Some o)) (prefix_of client (Some o) rows))
   else Uncaught TypeError).
Proof.
  intros Ho Hl. unfold score_leads. rewrite Ho, Hl. cbn.
  rewrite score_loop_eq. cbn. destruct (forallb _ rows); reflexivity.
Qed.

Lemma prefix_all (client : option Client) (offer : offer_dict) (rows : list lead) :
  forallb (fun l => hashable (intent_at client offer l)) rows = true ->
  prefix_of client offer rows = rows.
Proof.
  induction rows as [|l rows IH]; simpl; [reflexivity|].
  intros H. apply andb_true_iff in H as [-> Hrest]. now rewrite IH.
Qed.

Lemma prefix_split (client : option Client) (offer : offer_dict) (rows : list lead) :
  forallb (fun l => hashable (intent_at client offer l)) rows = false ->
  exists (l : lead) (after : list lead),
    rows = (prefix_of client offer rows ++ l :: after)%list /\
    hashable (intent_at client offer l) = false.
Proof.
  induction rows as [|l rows IH]; simpl; [discriminate|].
  destruct (hashable (intent_at client offer l)) eqn:E; simpl.
  - intros H. destruct (IH H) as (l' & after & Hrows & Hl').
    exists l', after. split; [now rewrite <- Hrows | exact Hl'].
  - intros _. exists l, rows. auto.
Qed.

Lemma prefix_hashable (client : option Client) (offer : offer_dict) (rows : list lead) :
  Forall (fun l => hashable (intent_at client offer l) = true) (prefix_of client offer rows).
Proof.
  induction rows as [|l rows IH]; simpl; [constructor|].
  destruct (hashable (intent_at client offer l)) eqn:E; constructor; assumption.
Qed.

Lemma score_leads_inv (client : option Client) (s s' : Session)
    (out : outcome (list ScoredLead)) :
  run client s = (s', out) ->
  (s' = s /\ out = HTTPException 400 "Please upload both offer and leads first." /\
   (OFFER_DATA s = None \/ LEADS_DF s = None)) \/
  (exists (o : Offer) (rows : list lead), OFFER_DATA s = Some o /\ LEADS_DF s = Some rows).
Proof.
  intros H. destruct (OFFER_DATA s) as [o|] eqn:Ho, (LEADS_DF s) as [rows|] eqn:Hl.
  - right. exists o, rows. auto.
  - left. unfold score_leads in H. rewrite Ho, Hl in H. cbn in H. injection H as <- <-. auto.
  - left. unfold score_leads in H. rewrite Ho, Hl in H. cbn in H. injection H as <- <-. auto.
  - left. unfold score_leads in H. rewrite Ho, Hl in H. cbn in H. injection H as <- <-. auto.
Qed.

(** The facts about one record of a pass: the three columns copied from
    the lead, the intent the classifier gave, and the score, which is the
    rule score plus 10, 30 or 50 points. *)
Lemma record_facts (client : option Client) (offer : offer_dict) (l : lead) :
  hashable (intent_at client offer l) = true ->
  let r := record_of client offer l in
  sl_name r = get_default l "name" PyNone /\
  sl_role r = get_default l "role" PyNone /\
  sl_company r = get_default l "company" PyNone /\
  sl_intent r = intent_at client offer l /\
  rule_based_score l offer = Ok (sl_score r - points_of (sl_intent r)) /\
  In (points_of (sl_intent r)) [10; 30; 50] /\
  10 <= sl_score r <= 100.
Proof.
  intros Hh r. subst r. cbn [scored_with sl_name sl_role sl_company sl_intent sl_score].
  destruct (points_of_hashable _ Hh) as [_ Hp].
  repeat split; try reflexivity; try exact Hp.
  - rewrite rule_based_score_sum. f_equal. lia.
  - rewrite seniority_points_cases, completeness_points_cases.
    pose proof (industry_points_range l offer). simpl in Hp.
    destruct (any_in tier_a (lower (role_text l))), (any_in tier_b (lower (role_text l))),
      (forallb (get_truthy l) required_columns); lia.
  - rewrite seniority_points_cases, completeness_points_cases.
    pose proof (industry_points_range l offer). simpl in Hp.
    destruct (any_in tier_a (lower (role_text l))), (any_in tier_b (lower (role_text l))),
      (forallb (get_truthy l) required_columns); lia.
Qed.

(** When the pass returns, it returns what it stored: one record per row
    of the batch, in the order of the rows, each with name, role and
    company copied from its row (None for a missing column), the intent the
    classifier gave for the row, and a score between 10 and 100 that is the
    rule score of the row plus 10, 30 or 50 points; offer and batch are
    left as they were. *)
Theorem score_leads_returned (client : option Client) (s s' : Session)
    (results : list ScoredLead) :
  score_leads json_loads json_dumps_offer json_dumps_lead client s = (s', Returned results) ->
  exists rows : list lead,
    LEADS_DF s = Some rows /\
    s' = set_results s results /\
    length results = length rows /\
    Forall2 (fun (row : lead) (r : ScoredLead) =>
               sl_name r = get_default row "name" PyNone /\
               sl_role r = get_default row "role" PyNone /\
               sl_company r = get_default row "company" PyNone /\
               sl_intent r = intent_at client (OFFER_DATA s) row /\
               rule_based_score row (OFFER_DATA s) = Ok (sl_score r - points_of (sl_intent r)) /\
               In (points_of (sl_intent r)) [10; 30; 50] /\
               10 <= sl_score r <= 100)
            rows results.
Proof.
  intros H. destruct (score_leads_inv _ _ _ _ H) as [(_ & Hout & _) | (o & rows & Ho & Hl)];
    [discriminate Hout|].
  rewrite (score_leads_eq client s o rows Ho Hl) in H.
  destruct (forallb _ rows) eqn:Eall; [|inversion H].
  rewrite (prefix_all _ _ _ Eall) in H. injection H as <- <-.
  exists rows. rewrite Ho. repeat split; [exact Hl | now rewrite length_map |].
  clear Hl. induction rows as [|l rows IH]; [constructor|].
  simpl in Eall. apply andb_true_iff in Eall as [Hh Hrest].
  cbn [map]. constructor; [apply (record_facts client (Some o) l Hh) | exact (IH Hrest)].
Qed.

(** The one exception that escapes the handler is TypeError, and it does
    so at the first row for which the classifier gave a list or a dict as
    intent: the rows before it have been scored and their records stay in
    the results, the row itself and the rows after it are not scored. *)
Theorem score_leads_uncaught (client : option Client) (s s' : Session) (e : exn) :
  score_leads json_loads json_dumps_offer json_dumps_lead client s = (s', Uncaught e) ->
  e = TypeError /\
  exists (before : list lead) (l : lead) (after : list lead),
    LEADS_DF s = Some (before ++ l :: after)%list /\
    hashable (intent_at client (OFFER_DATA s) l) = false /\
    Forall (fun row => hashable (intent_at client (OFFER_DATA s) row) = true) before /\
    s' = set_results s (map (record_of client (OFFER_DATA s)) before) /\
    (length (RESULTS s') < length (before ++ l :: after)%list)%nat.
Proof.
  intros H. destruct (score_leads_inv _ _ _ _ H) as [(_ & Hout & _) | (o & rows & Ho & Hl)];
    [discriminate Hout|].
  rewrite (score_leads_eq client s o rows Ho Hl) in H.
  destruct (forallb _ rows) eqn:Eall; [inversion H|].
  injection H as <- <-. split; [reflexivity|].
  destruct (prefix_split _ _ _ Eall) as (l & after & Hrows & Hl').
  exists (prefix_of client (Some o) rows), l, after. rewrite Ho.
  repeat split; auto.
  - now rewrite <- Hrows.
  - apply prefix_hashable.
  - cbn. rewrite length_map, length_app. simpl. lia.
Qed.

(** For a session that passes the check, the pass returns exactly when
    every row's intent can be looked up (is not a list or a dict). *)
Theorem score_leads_returns_iff (client : option Client) (s : Session) (o : Offer)
    (rows : list lead) :
  OFFER_DATA s = Some o -> LEADS_DF s = Some rows ->
  (exists results : list ScoredLead,
     snd (score_leads json_loads json_dumps_offer json_dumps_lead client s) = Returned results)
  <-> Forall (fun row => hashable (intent_at client (Some o) row) = true) rows.
Proof.
  intros Ho Hl. rewrite (score_leads_eq client s o rows Ho Hl). cbn.
  rewrite List.Forall_forall. destruct (forallb _ rows) eqn:Eall.
  - rewrite forallb_forall in Eall. split; [intros _; exact Eall | eauto].
  - split; [intros [rs Hrs]; discriminate Hrs|].
    intros Hall. apply forallb_forall in Hall. congruence.
Qed.

(** With no client configured, a pass on a session that has an offer and a
    batch always returns: one record per row, in order, with intent Medium,
    the fixed reasoning and the rule score plus 30. *)
Theorem score_leads_without_client (s : Session) (o : Offer) (rows : list lead) :
  OFFER_DATA s = Some o -> LEADS_DF s = Some rows ->
  score_leads json_loads json_dumps_offer json_dumps_lead None s =
  (set_results s (map (scored_by_rules (Some o)) rows),
   Returned (map (scored_by_rules (Some o)) rows)).
Proof.
  intros Ho Hl. rewrite (score_leads_eq None s o rows Ho Hl).
  assert (forallb (fun l => hashable (intent_at None (Some o) l)) rows = true) as Eall.
  { apply forallb_forall. intros l _. reflexivity. }
  rewrite Eall, (prefix_all _ _ _ Eall). reflexivity.
Qed.

(** A pass starts from an empty list: for a session that passes the check
    and the same answers of the service, what the results held before makes
    no difference to the session and the reply after the pass. *)
Theorem score_leads_overwrites (client : option Client) (s : Session)
    (old : list ScoredLead) :
  OFFER_DATA s <> None -> LEADS_DF s <> None ->
  score_leads json_loads json_dumps_offer json_dumps_lead client (set_results s old) =
  score_leads json_loads json_dumps_offer json_dumps_lead client s.
Proof.
  intros Ho Hl. destruct (OFFER_DATA s) as [o|] eqn:Eo; [|contradiction].
  destruct (LEADS_DF s) as [rows|] eqn:El; [|contradiction].
  rewrite (score_leads_eq client s o rows Eo El).
  rewrite (score_leads_eq client (set_results s old) o rows); [reflexivity | exact Eo | exact El].
Qed.

End PassProperties.

Lemma score_leads_returned_witness :
  exists rows : list lead,
    LEADS_DF session_ready = Some rows /\
    length (map (scored_by_rules (Some offer_x)) [lead_acme; lead_manager]) = length rows.
Proof.
  destruct (score_leads_returned loads dumps_elided dumps_elided None session_ready
              (set_results session_ready
                 (map (scored_by_rules (Some offer_x)) [lead_acme; lead_manager]))
              (map (scored_by_rules (Some offer_x)) [lead_acme; lead_manager]))
    as (rows & Hrows & _ & Hlen & _).
  - vm_compute. reflexivity.
  - exists rows. split; assumption.
Defined.

Lemma score_leads_uncaught_witness :
  snd (score_leads loads dumps_elided dumps_role (Some client_picky) session_ready)
    = Uncaught TypeError /\
  length (RESULTS (fst (score_leads loads dumps_elided dumps_role (Some client_picky)
                          session_ready))) = 1%nat.
Proof.
  split; [|vm_compute; reflexivity].
  destruct (score_leads_uncaught loads dumps_elided dumps_role (Some client_picky)
              session_ready
              (fst (score_leads loads dumps_elided dumps_role (Some client_picky)
                      session_ready))
              TypeError) as [_ _].
  - vm_compute. reflexivity.
  - vm_compute. reflexivity.
Defined.

Lemma score_leads_returns_iff_witness :
  exists results : list ScoredLead,
    snd (score_leads loads dumps_elided dumps_elided (Some (client_says reply_maybe))
           session_ready) = Returned results.
Proof.
  apply (score_leads_returns_iff loads dumps_elided dumps_elided
           (Some (client_says reply_maybe)) session_ready offer_x [lead_acme; lead_manager]
           eq_refl eq_refl).
  repeat constructor.
Defined.

Lemma score_leads_without_client_witness :
  score_leads loads dumps_elided dumps_elided None session_ready =
  (set_results session_ready (map (scored_by_rules (Some offer_x)) [lead_acme; lead_manager]),
   Returned (map (scored_by_rules (Some offer_x)) [lead_acme; lead_manager])).
Proof.
  apply (score_leads_without_client loads dumps_elided dumps_elided session_ready offer_x
           [lead_acme; lead_manager]); reflexivity.
Defined.

Lemma score_leads_overwrites_witness :
  score_leads loads dumps_elided dumps_elided (Some (client_says reply_fenced))
    (set_results session_ready []) =
  score_leads loads dumps_elided dumps_elided (Some (client_says reply_fenced)) session_ready.
Proof.
  apply (score_leads_overwrites loads dumps_elided dumps_elided
           (Some (client_says reply_fenced)) session_ready []); discriminate.
Defined.

(** ** The handlers together *)

Section HandlerProperties.

Variable json_loads : string -> pyresult json.
Variable json_dumps_offer : offer_dict -> string.
Variable json_dumps_lead : lead -> string.
Variable read_csv : string -> attempt (list lead).
Variable to_csv : list ScoredLead -> string.

(** After a pass that returned, reading the results gives what the pass
    returned, except after a pass over a batch with no rows: then the pass
    returned the empty list and reading the results fails with status 400. *)
Theorem get_results_after_pass (client : option Client) (s s' : Session)
    (results : list ScoredLead) :
  score_leads json_loads json_dumps_offer json_dumps_lead client s = (s', Returned results) ->
  (results <> [] -> get_results s' = Returned results) /\
  (results = [] ->
   LEADS_DF s = Some [] /\
   get_results s' = HTTPException 400 "No scored results available. Run /score first.").
Proof.
  intros H.
  destruct (score_leads_inv _ _ _ _ _ _ _ H) as [(_ & Hout & _) | (o & rows & Ho & Hl)];
    [discriminate Hout|].
  rewrite (score_leads_eq _ _ _ client s o rows Ho Hl) in H.
  destruct (forallb _ rows) eqn:Eall; [|inversion H].
  rewrite (prefix_all _ _ _ _ _ _ Eall) in H. injection H as <- <-.
  unfold get_results. cbn. split.
  - destruct rows; [intros Hne; contradiction Hne; reflexivity | reflexivity].
  - destruct rows; [auto | discriminate].
Qed.

(** Results of a pass that stopped half way are served: when a row raised
    after the first row had been scored, reading the results returns the
    records of the rows before the failing one, fewer than the batch has
    rows. *)
Theorem get_results_after_uncaught (client : option Client) (s s' : Session) (e : exn)
    (first : lead) (rest : list lead) :
  score_leads json_loads json_dumps_offer json_dumps_lead client s = (s', Uncaught e) ->
  LEADS_DF s = Some (first :: rest) ->
  hashable (intent_of json_loads json_dumps_offer json_dumps_lead client (OFFER_DATA s) first)
    = true ->
  exists partial : list ScoredLead,
    get_results s' = Returned partial /\
    (0 < length partial < length (first :: rest))%nat.
Proof.
  intros H Hrows Hfirst.
  destruct (score_leads_inv _ _ _ _ _ _ _ H) as [(_ & Hout & _) | (o & rows & Ho & Hl)];
    [discriminate Hout|].
  rewrite Hrows in Hl. injection Hl as <-. rewrite Ho in Hfirst.
  rewrite (score_leads_eq _ _ _ client s o (first :: rest) Ho Hrows) in H.
  destruct (forallb _ (first :: rest)) eqn:Eall; [inversion H|].
  injection H as <- _.
  destruct (prefix_split _ _ _ _ _ _ Eall) as (l & after & Hsplit & _).
  apply (f_equal (@length lead)) in Hsplit. rewrite length_app in Hsplit.
  cbn [scorable_prefix] in *. rewrite Hfirst in *.
  eexists. split; [reflexivity|].
  cbn [RESULTS set_results]. rewrite length_map. cbn [length] in *. lia.
Qed.

(** Exporting and reading the results fail on the same sessions: when
    reading returns the results, the export writes them to
    scored_leads.csv, touches no other file and answers with that file;
    when reading fails, the export fails with status 400 and writes
    nothing. *)
Theorem export_results_as_get_results (s : Session) (files : gmap string string) :
  (forall results : list ScoredLead,
     get_results s = Returned results ->
     export_results to_csv s files =
       (<["scored_leads.csv" := to_csv results]> files,
        Returned {| path := "scored_leads.csv"; filename := "scored_leads.csv";
                    media_type := "text/csv" |}) /\
     forall other : string, other <> "scored_leads.csv" ->
       fst (export_results to_csv s files) !! other = files !! other) /\
  (forall (status_code : Z) (detail : string),
     get_results s = HTTPException status_code detail ->
     export_results to_csv s files =
       (files, HTTPException 400 "No scored results available to export.")).
Proof.
  unfold get_results, export_results. destruct (results_empty (RESULTS s)); split.
  - intros results H. discriminate H.
  - reflexivity.
  - intros results [= <-]. split; [reflexivity|].
    intros other Hother. cbn. now rewrite lookup_insert_ne.
  - intros status_code detail H. discriminate H.
Qed.

(** An upload that cannot be read fails with status 400 and a detail that
    starts with "Error reading CSV: ", and leaves the session as it was: an
    earlier batch stays in place. *)
Theorem upload_leads_failure (file_read : attempt string) (s : Session) (message : string) :
  file_read = Failed message \/
  (exists contents : string, file_read = Done contents /\ read_csv contents = Failed message) ->
  upload_leads read_csv file_read s =
    (s, HTTPException 400 ("Error reading CSV: " +:+ message)).
Proof.
  intros [-> | (contents & -> & H)]; unfold upload_leads; [reflexivity|].
  rewrite H. reflexivity.
Qed.

(** A successful upload replaces the batch by the rows read, whatever
    batch was there, reports their number, and keeps offer and results. *)
Theorem upload_leads_success (contents : string) (rows : list lead) (s : Session) :
  read_csv contents = Done rows ->
  upload_leads read_csv (Done contents) s =
    ({| OFFER_DATA := OFFER_DATA s; LEADS_DF := Some rows; RESULTS := RESULTS s |},
     Returned ("Leads uploaded successfully", Z.of_nat (length rows))) /\
  forall (earlier : attempt string),
    fst (upload_leads read_csv (Done contents) (fst (upload_leads read_csv earlier s))) =
    fst (upload_leads read_csv (Done contents) s).
Proof.
  intros H. unfold upload_leads. rewrite H. split; [reflexivity|].
  intros [c|m]; [|reflexivity]. destruct (read_csv c); reflexivity.
Qed.

(** The two uploads do not interfere: in either order they lead to the
    same session; and neither touches the results, so reading the results
    answers after an upload as it did before. *)
Theorem uploads_commute (offer : Offer) (file_read : attempt string) (s : Session) :
  fst (upload_leads read_csv file_read (fst (upload_offer offer s))) =
  fst (upload_offer offer (fst (upload_leads read_csv file_read s))) /\
  get_results (fst (upload_offer offer s)) = get_results s /\
  get_results (fst (upload_leads read_csv file_read s)) = get_results s.
Proof.
  unfold upload_leads, upload_offer, get_results.
  destruct file_read as [contents|m]; [|repeat split].
  destruct (read_csv contents); repeat split.
Qed.

(** Upload an offer, upload a batch that can be read, score: from every
    session the pass gets through the check; with no client configured it
    returns one record per row with the rule score plus 30. *)
Theorem upload_then_score (client : option Client) (offer : Offer) (contents : string)
    (rows : list lead) (s : Session) :
  read_csv contents = Done rows ->
  let ready := fst (upload_leads read_csv (Done contents) (fst (upload_offer offer s))) in
  (forall (status_code : Z) (detail : string),
     snd (score_leads json_loads json_dumps_offer json_dumps_lead client ready)
     <> HTTPException status_code detail) /\
  score_leads json_loads json_dumps_offer json_dumps_lead None ready =
    (set_results ready (map (scored_by_rules (Some offer)) rows),
     Returned (map (scored_by_rules (Some offer)) rows)).
Proof.
  intros H ready.
  assert (OFFER_DATA ready = Some offer /\ LEADS_DF ready = Some rows) as [Ho Hl].
  { subst ready. unfold upload_leads. rewrite H. split; reflexivity. }
  split.
  - intros status_code detail.
    rewrite (score_leads_eq _ _ _ client ready offer rows Ho Hl). cbn.
    destruct (forallb _ rows); discriminate.
  - rewrite (score_leads_eq _ _ _ None ready offer rows Ho Hl).
    assert (forallb (fun l => hashable (intent_of json_loads json_dumps_offer json_dumps_lead
                                           None (Some offer) l)) rows = true) as Eall.
    { apply forallb_forall. intros l _. reflexivity. }
    rewrite Eall, (prefix_all _ _ _ _ _ _ Eall). reflexivity.
Qed.

End HandlerProperties.

Lemma get_results_after_pass_witness :
  get_results (fst (score_leads loads dumps_elided dumps_elided None session_ready)) =
    Returned (map (scored_by_rules (Some offer_x)) [lead_acme; lead_manager]) /\
  get_results (fst (score_leads loads dumps_elided dumps_elided None session_empty_batch)) =
    HTTPException 400 "No scored results available. Run /score first.".
Proof.
  split.
  - apply (get_results_after_pass loads dumps_elided dumps_elided None session_ready
             (fst (score_leads loads dumps_elided dumps_elided None session_ready))
             (map (scored_by_rules (Some offer_x)) [lead_acme; lead_manager]));
      [vm_compute; reflexivity | discriminate].
  - apply (get_results_after_pass loads dumps_elided dumps_elided None session_empty_batch
             (fst (score_leads loads dumps_elided dumps_elided None session_empty_batch)) []);
      reflexivity.
Defined.

Lemma get_results_after_uncaught_witness :
  exists partial : list ScoredLead,
    get_results (fst (score_leads loads dumps_elided dumps_role (Some client_picky)
                        session_ready)) = Returned partial /\
    (0 < length partial < 2)%nat.
Proof.
  apply (get_results_after_uncaught loads dumps_elided dumps_role (Some client_picky)
           session_ready
           (fst (score_leads loads dumps_elided dumps_role (Some client_picky) session_ready))
           TypeError lead_acme [lead_manager]); vm_compute; reflexivity.
Defined.

Lemma export_results_as_get_results_witness :
  export_results to_csv_sample session_ready ∅ =
    (<["scored_leads.csv" := "90"]> ∅,
     Returned {| path := "scored_leads.csv"; filename := "scored_leads.csv";
                 media_type := "text/csv" |}) /\
  export_results to_csv_sample session_fresh ∅ =
    (∅, HTTPException 400 "No scored results available to export.").
Proof.
  split.
  - apply (proj1 (export_results_as_get_results to_csv_sample session_ready ∅)
             [scored_before]).
    reflexivity.
  - apply (proj2 (export_results_as_get_results to_csv_sample session_fresh ∅)
             400 "No scored results available. Run /score first.").
    reflexivity.
Defined.

Lemma upload_leads_failure_witness :
  upload_leads read_csv_sample (Done "not a table") session_ready =
    (session_ready, HTTPException 400 "Error reading CSV: No columns to parse from file") /\
  upload_leads read_csv_sample (Failed "connection lost") session_ready =
    (session_ready, HTTPException 400 "Error reading CSV: connection lost").
Proof.
  split.
  - apply (upload_leads_failure read_csv_sample (Done "not a table") session_ready
             "No columns to parse from file").
    right. exists "not a table". split; reflexivity.
  - apply (upload_leads_failure read_csv_sample (Failed "connection lost") session_ready
             "connection lost").
    left. reflexivity.
Defined.

Lemma upload_leads_success_witness :
  upload_leads read_csv_sample (Done "two rows") session_no_leads =
    ({| OFFER_DATA := Some offer_x; LEADS_DF := Some [lead_acme; lead_manager];
        RESULTS := [scored_before] |},
     Returned ("Leads uploaded successfully", 2)).
Proof.
  apply (upload_leads_success read_csv_sample "two rows" [lead_acme; lead_manager]
           session_no_leads).
  reflexivity.
Defined.

Lemma upload_then_score_witness :
  score_leads loads dumps_elided dumps_elided None
    (fst (upload_leads read_csv_sample (Done "two rows")
            (fst (upload_offer offer_x session_fresh))))
  = (set_results
       (fst (upload_leads read_csv_sample (Done "two rows")
               (fst (upload_offer offer_x session_fresh))))
       (map (scored_by_rules (Some offer_x)) [lead_acme; lead_manager]),
     Returned (map (scored_by_rules (Some offer_x)) [lead_acme; lead_manager])).
Proof.
  apply (upload_then_score loads dumps_elided dumps_elided read_csv_sample None offer_x
           "two rows" [lead_acme; lead_manager] session_fresh).
  reflexivity.
Defined.
